(** * The event-driven orchestrator of [amplifier_module_loop_events]

    A shallow embedding of [EventDrivenOrchestrator] (file
    [amplifier_module_loop_events/__init__.py]) and the proofs of its
    behavioural properties.

    The orchestrator owns no data of its own: every effect it has is a call
    on one of its collaborators (the hook registry, the context, the selected
    provider, a tool).  The embedding therefore runs the code against an
    arbitrary deterministic world of collaborators and records, in order,
    every call the orchestrator makes together with what the call returned.
    The properties are statements about that record of calls and about the
    returned string. *)

From Stdlib Require Import ZArith Lia.
From stdpp Require Import base option list strings gmap.

Open Scope string_scope.
Open Scope list_scope.

(** ** Data model *)

(** Values the orchestrator passes through without looking inside them: tool
    arguments, the [output] and the [error] of a tool result. *)
Unset Elimination Schemes.
Inductive Any :=
| PyNone
| PyStr (s : string)
| PyDict (items : list (string * Any))
| PyObj (ref : nat).
Set Elimination Schemes.

(** Tool and provider objects are references; what calling them does is decided
    by the world of collaborators.  Both are ordinary objects, hence truthy. *)
Inductive Tool := ToolObj (ref : nat).
Inductive Provider := ProviderObj (ref : nat).

(** [ToolCall]: the attributes [tool], [arguments] and [id] read at lines
    114-136. *)
Record ToolCall := mkToolCall {
  tc_tool : string;
  tc_arguments : Any;
  tc_id : string
}.

(** [ToolResult] of [amplifier_core]: [success], [output], [error]. *)
Record ToolResult := mkToolResult {
  tr_success : bool;
  tr_output : Any;
  tr_error : Any
}.

(** [HookResult]: [action], [reason] ([None] when absent) and [data] ([None]
    or a dict; the only key read is ["tool"], whose value is a tool name). *)
Record HookResult := mkHookResult {
  hr_action : string;
  hr_reason : option string;
  hr_data : option (gmap string string)
}.

(** The provider's response; only [content] is read, and it may be [None]. *)
Record Response := mkResponse {
  resp_content : option string
}.

(** A message dict.  A key that a dict literal does not have is [None] here. *)
Record Message := mkMessage {
  msg_role : string;
  msg_content : option string;
  msg_tool_calls : option (list ToolCall);
  msg_name : option string;
  msg_tool_call_id : option string
}.

(** Values of an event payload. *)
Inductive Val :=
| VNone
| VStr (s : string)
| VNames (names : list string)
| VAny (a : Any)
| VTool (t : Tool)
| VResult (r : ToolResult).

(** A payload is a dict literal, kept in the order the source writes it. *)
Definition Payload := list (string * Val).

(** What a call that may raise comes back with; an exception [e] is kept as
    [str(e)], the only thing the orchestrator reads from it. *)
Inductive Outcome (A : Type) :=
| Returned (a : A)
| Raised (e : string).
Arguments Returned {A} a.
Arguments Raised {A} e.

(** One entry per call on a collaborator, with the value the call returned. *)
Inductive Action :=
| HooksEmit (event : string) (payload : Payload) (result : HookResult)
| ContextAddMessage (m : Message)
| ContextGetMessages (result : list Message)
| ContextShouldCompact (result : bool)
| ContextCompact
| ProviderComplete (p : Provider) (messages : list Message) (tools : list Tool)
    (result : Outcome Response)
| ProviderParseToolCalls (p : Provider) (r : Response) (result : list ToolCall)
| ToolExecute (t : Tool) (arguments : Any) (result : Outcome ToolResult).

(** ** Python helpers *)

(** [d.get(k)] on a dict kept in insertion order (keys are distinct). *)
Fixpoint dict_get {A : Type} (k : string) (d : list (string * A)) : option A :=
  match d with
  | [] => None
  | (k', v) :: d' => if decide (k' = k) then Some v else dict_get k d'
  end.

Definition dict_keys {A : Type} (d : list (string * A)) : list string := d.*1.
Definition dict_values {A : Type} (d : list (string * A)) : list A := d.*2.

(** [x or d] for an optional string: [None] and [""] are falsy. *)
Definition py_or (x : option string) (d : string) : string :=
  match x with
  | Some s => if decide (s = "") then d else s
  | None => d
  end.

Definition val_of_opt (x : option string) : Val :=
  match x with
  | Some s => VStr s
  | None => VNone
  end.

(** The message dict literals of the source. *)
Definition user_message (prompt : string) : Message :=
  mkMessage "user" (Some prompt) None None None.

Definition assistant_message (content : option string) : Message :=
  mkMessage "assistant" content None None None.

Definition assistant_tool_calls_message (content : string) (calls : list ToolCall) : Message :=
  mkMessage "assistant" (Some content) (Some calls) None None.

Definition tool_message (name call_id content : string) : Message :=
  mkMessage "tool" (Some content) None (Some name) (Some call_id).

(** ** The orchestrator object *)

Record Config := mkConfig {
  cfg_max_iterations : option Z;
  cfg_default_provider : option string
}.

Record EventDrivenOrchestrator := mkOrchestrator {
  max_iterations : Z;
  default_provider : option string
}.

(** [__init__]. *)
Definition init (config : Config) : EventDrivenOrchestrator :=
  {| max_iterations := default 50%Z (cfg_max_iterations config);
     default_provider := cfg_default_provider config |}.

(** [_select_provider]. *)
Definition select_provider (self : EventDrivenOrchestrator)
    (providers : list (string * Provider)) : option Provider :=
  match providers with
  | [] => None
  | (_, first) :: _ =>
      match default_provider self with
      | Some d =>
          if decide (d = "") then Some first
          else match dict_get d providers with
               | Some p => Some p
               | None => Some first
               end
      | None => Some first
      end
  end.

(** [mount]: [config or {}], the construction of the orchestrator, and the
    slot and object handed to [coordinator.mount]; the function returns
    nothing. *)
Definition mount (config : option Config) : string * EventDrivenOrchestrator :=
  let config :=
    match config with
    | Some c =>
        match cfg_max_iterations c, cfg_default_provider c with
        | None, None => mkConfig None None
        | _, _ => c
        end
    | None => mkConfig None None
    end in
  ("orchestrator", init config).

(** ** Collaborators

    The hook registry, the context, the providers and the tools are external
    objects with state of their own.  [W] is their joint state; each method is
    a function of its arguments and of that state.  [hooks.emit],
    the context methods and [parse_tool_calls] return; [provider.complete] and
    [tool.execute] may raise.  [py_str] is the interpreter's [str()]. *)
Record Collaborators (W : Type) := mkCollaborators {
  hooks_emit : string -> Payload -> W -> HookResult * W;
  context_add_message : Message -> W -> W;
  context_get_messages : W -> list Message * W;
  context_should_compact : W -> bool * W;
  context_compact : W -> W;
  provider_complete : Provider -> list Message -> list Tool -> W -> Outcome Response * W;
  provider_parse_tool_calls : Provider -> Response -> W -> list ToolCall * W;
  tool_execute : Tool -> Any -> W -> Outcome ToolResult * W;
  py_str : Any -> string
}.
Arguments hooks_emit {W} _ _ _ _.
Arguments context_add_message {W} _ _ _.
Arguments context_get_messages {W} _ _.
Arguments context_should_compact {W} _ _.
Arguments context_compact {W} _ _.
Arguments provider_complete {W} _ _ _ _ _.
Arguments provider_parse_tool_calls {W} _ _ _ _.
Arguments tool_execute {W} _ _ _ _.
Arguments py_str {W} _ _.

(** ** The monad of orchestrator code

    A computation takes the world, and gives its value, the world after it
    and the calls it made, oldest first. *)
Definition M (W A : Type) : Type := W -> A * W * list Action.

Definition ret {W A : Type} (a : A) : M W A := fun w => (a, w, []).

Definition bind {W A B : Type} (m : M W A) (k : A -> M W B) : M W B :=
  fun w =>
    let '(a, w1, t1) := m w in
    let '(b, w2, t2) := k a w1 in
    (b, w2, t1 ++ t2).

Declare Scope orch_scope.
Delimit Scope orch_scope with orch.
Notation "x <- m ;; k" := (bind m (fun x => k))
  (at level 100, m at next level, right associativity) : orch_scope.
Notation "m ;; k" := (bind m (fun _ => k))
  (at level 100, right associativity) : orch_scope.

Definition value {W A : Type} (r : A * W * list Action) : A := r.1.1.
Definition world {W A : Type} (r : A * W * list Action) : W := r.1.2.
Definition calls {W A : Type} (r : A * W * list Action) : list Action := r.2.

(** ** The orchestrator *)

Section Orchestrator.
Context {W : Type} (env : Collaborators W).

Local Open Scope orch_scope.

(** The collaborator calls, each recorded with its result. *)
Definition emit (event : string) (payload : Payload) : M W HookResult :=
  fun w => let '(r, w') := hooks_emit env event payload w in
           (r, w', [HooksEmit event payload r]).

Definition add_message (m : Message) : M W unit :=
  fun w => (tt, context_add_message env m w, [ContextAddMessage m]).

Definition get_messages : M W (list Message) :=
  fun w => let '(ms, w') := context_get_messages env w in
           (ms, w', [ContextGetMessages ms]).

Definition should_compact : M W bool :=
  fun w => let '(b, w') := context_should_compact env w in
           (b, w', [ContextShouldCompact b]).

Definition compact : M W unit :=
  fun w => (tt, context_compact env w, [ContextCompact]).

Definition complete (provider : Provider) (messages : list Message) (tools : list Tool)
    : M W (Outcome Response) :=
  fun w => let '(r, w') := provider_complete env provider messages tools w in
           (r, w', [ProviderComplete provider messages tools r]).

Definition parse_tool_calls (provider : Provider) (response : Response)
    : M W (list ToolCall) :=
  fun w => let '(tcs, w') := provider_parse_tool_calls env provider response w in
           (tcs, w', [ProviderParseToolCalls provider response tcs]).

Definition execute_tool (tool : Tool) (arguments : Any) : M W (Outcome ToolResult) :=
  fun w => let '(r, w') := tool_execute env tool arguments w in
           (r, w', [ToolExecute tool arguments r]).

(** Line 126: the payload of [tool:selecting]. *)
Definition selecting_payload (tools : list (string * Tool)) (tool_call : ToolCall)
    : Payload :=
  [("tool", VStr (tc_tool tool_call));
   ("arguments", VAny (tc_arguments tool_call));
   ("available_tools", VNames (dict_keys tools))].

(** Line 143: the tool name after a "modify" verdict. *)
Definition modified_tool_name (hook_result : HookResult) (tool_name : string) : string :=
  match hr_data hook_result with
  | Some data =>
      if decide (data = ∅) then tool_name
      else default tool_name (data !! "tool")
  | None => tool_name
  end.

(** Lines 141-143: [tool_name] once the verdict of [tool:selecting] is in. *)
Definition resolved_tool_name (hook_result : HookResult) (tool_call : ToolCall) : string :=
  if decide (hr_action hook_result = "modify")
  then modified_tool_name hook_result (tc_tool tool_call)
  else tc_tool tool_call.

(** Lines 149-153: the payload of [tool:selected]. *)
Definition selected_payload (hook_result : HookResult) (tool_call : ToolCall) : Payload :=
  [("tool", VStr (resolved_tool_name hook_result tool_call));
   ("source", VStr (if decide (hr_action hook_result = "modify")
                    then "scheduler" else "llm"));
   ("original_tool", if decide (hr_action hook_result = "modify")
                     then VStr (tc_tool tool_call) else VNone)].

(** Lines 160-162: the payload of [tool:pre]. *)
Definition pre_hook_data (tool_name : string) (arguments : Any) (tool : option Tool)
    : Payload :=
  [("tool", VStr tool_name); ("arguments", VAny arguments)] ++
  match tool with
  | Some t => [("tool_obj", VTool t)]
  | None => []
  end.

(** Line 232: the content of the tool message that carries a result. *)
Definition result_content (result : ToolResult) : string :=
  if tr_success result then py_str env (tr_output result)
  else "Error: " +:+ py_str env (tr_error result).

(** Lines 200-234: run the tool that was found and record its result. *)
Definition run_tool (tool_name : string) (tool : Tool) (tool_call : ToolCall) : M W unit :=
  outcome <- execute_tool tool (tc_arguments tool_call) ;;
  result <- match outcome with
            | Returned result => ret result
            | Raised e =>
                emit "error:tool"
                  [("error_type", VStr "execution_failed");
                   ("error_message", VStr e);
                   ("tool", VStr tool_name);
                   ("severity", VStr "high")] ;;
                ret (mkToolResult false PyNone (PyDict [("message", PyStr e)]))
            end ;;
  emit "tool:post" [("tool", VStr tool_name); ("result", VResult result)] ;;
  add_message (tool_message tool_name (tc_id tool_call) (result_content result)).

(** Lines 179-198: the resolved tool is not in [tools]. *)
Definition tool_not_found (tool_name : string) (tool_call : ToolCall) : M W unit :=
  add_message (tool_message tool_name (tc_id tool_call)
                 ("Error: Tool " +:+ tool_name +:+ " not found")) ;;
  emit "error:tool"
    [("error_type", VStr "tool_not_found");
     ("error_message", VStr ("Tool " +:+ tool_name +:+ " not found"));
     ("severity", VStr "medium")] ;;
  ret tt.

(** Lines 141-234: the rest of the body once [tool:selecting] did not deny;
    [hook_result] is its verdict. *)
Definition after_selecting (tools : list (string * Tool)) (tool_call : ToolCall)
    (hook_result : HookResult) : M W unit :=
  let tool_name := resolved_tool_name hook_result tool_call in
  emit "tool:selected" (selected_payload hook_result tool_call) ;;
  let tool := dict_get tool_name tools in
  pre_hook_result <- emit "tool:pre" (pre_hook_data tool_name (tc_arguments tool_call) tool) ;;
  if decide (hr_action pre_hook_result = "deny") then
    let reason := py_or (hr_reason pre_hook_result) "Tool execution denied" in
    add_message (tool_message tool_name (tc_id tool_call) ("Error: " +:+ reason))
  else
    match tool with
    | None => tool_not_found tool_name tool_call
    | Some tool => run_tool tool_name tool tool_call
    end.

(** Lines 120-234: the body of [for tool_call in tool_calls]; [continue] is
    the end of the body. *)
Definition process_tool_call (tools : list (string * Tool)) (tool_call : ToolCall)
    : M W unit :=
  let tool_name := tc_tool tool_call in
  hook_result <- emit "tool:selecting" (selecting_payload tools tool_call) ;;
  if decide (hr_action hook_result = "deny") then
    let reason := py_or (hr_reason hook_result) "Tool execution denied by scheduler" in
    add_message (tool_message tool_name (tc_id tool_call) ("Error: " +:+ reason))
  else after_selecting tools tool_call hook_result.

(** Line 119: the [for] loop. *)
Fixpoint process_tool_calls (tools : list (string * Tool)) (tool_calls : list ToolCall)
    : M W unit :=
  match tool_calls with
  | [] => ret tt
  | tool_call :: rest =>
      process_tool_call tools tool_call ;;
      process_tool_calls tools rest
  end.

(** Lines 236-239. *)
Definition compaction_check : M W unit :=
  b <- should_compact ;;
  if b then emit "context:pre-compact" [] ;; compact else ret tt.

(** Lines 76-239: the [while] loop.  [remaining] is
    [max_iterations - iteration], so that the test [iteration < max_iterations]
    is [remaining] being a successor; the value is [final_response] at the
    exit of the loop. *)
Fixpoint while_loop (provider : Provider) (tools : list (string * Tool))
    (remaining : nat) (final_response : option string) : M W (option string) :=
  match remaining with
  | O => ret final_response
  | S remaining' =>
      messages <- get_messages ;;
      outcome <- complete provider messages (dict_values tools) ;;
      match outcome with
      | Raised e =>
          emit "error:provider"
            [("error_type", VStr "completion_failed");
             ("error_message", VStr e);
             ("severity", VStr "high")] ;;
          ret (Some ("Error getting response: " +:+ e))
      | Returned response =>
          tool_calls <- parse_tool_calls provider response ;;
          match tool_calls with
          | [] =>
              add_message (assistant_message (resp_content response)) ;;
              ret (resp_content response)
          | _ :: _ =>
              add_message
                (assistant_tool_calls_message (default "" (resp_content response))
                   (map (fun tc => mkToolCall (tc_tool tc) (tc_arguments tc) (tc_id tc))
                      tool_calls)) ;;
              process_tool_calls tools tool_calls ;;
              compaction_check ;;
              while_loop provider tools remaining' final_response
          end
      end
  end.

(** [execute]. *)
Definition execute (self : EventDrivenOrchestrator) (prompt : string)
    (providers : list (string * Provider)) (tools : list (string * Tool))
    : M W (option string) :=
  emit "session:start" [("prompt", VStr prompt)] ;;
  add_message (user_message prompt) ;;
  match select_provider self providers with
  | None => ret (Some "Error: No providers available")
  | Some provider =>
      final_response <- while_loop provider tools (Z.to_nat (max_iterations self)) (Some "") ;;
      emit "session:end" [("response", val_of_opt final_response)] ;;
      ret final_response
  end.

End Orchestrator.

(** ** Reading the record of calls *)

(** The messages appended to the context, in order. *)
Definition appended (t : list Action) : list Message :=
  omap (fun a => match a with ContextAddMessage m => Some m | _ => None end) t.

(** The events emitted, by name, in order. *)
Definition emitted (t : list Action) : list string :=
  omap (fun a => match a with HooksEmit event _ _ => Some event | _ => None end) t.

(** The payloads emitted under one event name. *)
Definition payloads_of (event : string) (t : list Action) : list Payload :=
  omap (fun a => match a with
                 | HooksEmit event' payload _ =>
                     if decide (event' = event) then Some payload else None
                 | _ => None
                 end) t.

(** The tools whose [execute] was invoked. *)
Definition executed (t : list Action) : list Tool :=
  omap (fun a => match a with ToolExecute tool _ _ => Some tool | _ => None end) t.

(** The number of calls of one kind. *)
Definition count (kind : Action -> bool) (t : list Action) : nat :=
  length (List.filter kind t).

Definition is_complete (a : Action) : bool :=
  match a with ProviderComplete _ _ _ _ => true | _ => false end.

Definition is_emit (event : string) (a : Action) : bool :=
  match a with HooksEmit event' _ _ => bool_decide (event' = event) | _ => false end.

(** [m] is the reply to [tool_call]: a tool-role message with its call id. *)
Definition replies_to (tool_call : ToolCall) (m : Message) : Prop :=
  msg_role m = "tool" ∧ msg_tool_call_id m = Some (tc_id tool_call).

(** A history of messages in which every message that carries tool calls is
    followed at once by the replies to them, one per call and in order, and no
    tool-role message stands anywhere else. *)
Inductive answered : list Message -> Prop :=
| answered_nil :
    answered []
| answered_plain m rest :
    msg_tool_calls m = None →
    msg_role m ≠ "tool" →
    answered rest →
    answered (m :: rest)
| answered_calls m tool_calls replies rest :
    msg_tool_calls m = Some tool_calls →
    Forall2 replies_to tool_calls replies →
    answered rest →
    answered (m :: replies ++ rest).

(** A call on a provider goes to [provider], and a completion request carries
    the tool objects of [tools], in the order of the mapping. *)
Definition uses_provider (provider : Provider) (tools : list (string * Tool))
    (a : Action) : Prop :=
  match a with
  | ProviderComplete p _ ts _ => p = provider ∧ ts = dict_values tools
  | ProviderParseToolCalls p _ _ => p = provider
  | _ => True
  end.

(** ** What the collaborators answered to one tool call *)

(** The kinds of call made while tool calls are processed: the five tool
    events, tool-role messages, and tool executions. *)
Definition tool_phase_action (a : Action) : bool :=
  match a with
  | HooksEmit event _ _ =>
      bool_decide (event ∈ ["tool:selecting"; "tool:selected"; "tool:pre";
                            "tool:post"; "error:tool"])
  | ContextAddMessage m =>
      bool_decide (msg_role m = "tool" ∧ msg_tool_calls m = None)
  | ToolExecute _ _ _ => true
  | _ => false
  end.

Section Observations.
Context {W : Type} (env : Collaborators W).

(** The verdict of [tool:selecting] for [tool_call] in world [w], and the world
    the hooks leave. *)
Definition selecting_verdict (tools : list (string * Tool)) (tool_call : ToolCall)
    (w : W) : HookResult :=
  (hooks_emit env "tool:selecting" (selecting_payload tools tool_call) w).1.

Definition after_selecting_world (tools : list (string * Tool)) (tool_call : ToolCall)
    (w : W) : W :=
  (hooks_emit env "tool:selecting" (selecting_payload tools tool_call) w).2.

(** The tool object looked up for [tool_call]: [tools.get(tool_name)]. *)
Definition looked_up (tools : list (string * Tool)) (tool_call : ToolCall) (w : W)
    : option Tool :=
  dict_get (resolved_tool_name (selecting_verdict tools tool_call w) tool_call) tools.

(** The verdict of [tool:pre] for [tool_call], when [tool:selecting] did not
    deny in world [w], and the world the hooks leave. *)
Definition pre_emit (tools : list (string * Tool)) (tool_call : ToolCall) (w : W)
    : HookResult * W :=
  let hook_result := selecting_verdict tools tool_call w in
  let w1 := after_selecting_world tools tool_call w in
  let w2 := (hooks_emit env "tool:selected" (selected_payload hook_result tool_call) w1).2 in
  hooks_emit env "tool:pre"
    (pre_hook_data (resolved_tool_name hook_result tool_call) (tc_arguments tool_call)
       (looked_up tools tool_call w)) w2.

Definition pre_verdict (tools : list (string * Tool)) (tool_call : ToolCall) (w : W)
    : HookResult :=
  (pre_emit tools tool_call w).1.

(** What [tool.execute] comes back with for [tool_call], when neither hook
    denied and the lookup found [tool]. *)
Definition execute_outcome (tools : list (string * Tool)) (tool_call : ToolCall)
    (tool : Tool) (w : W) : Outcome ToolResult :=
  (tool_execute env tool (tc_arguments tool_call) (pre_emit tools tool_call w).2).1.

End Observations.

(** ** The runs of the loop *)

(** The calls of the compaction check: the question, and on a yes the
    announcement and the compaction. *)
Inductive compaction_shape : list Action -> Prop :=
| no_compaction :
    compaction_shape [ContextShouldCompact false]
| compaction result :
    compaction_shape
      [ContextShouldCompact true; HooksEmit "context:pre-compact" [] result;
       ContextCompact].

Section Runs.
Context {W : Type} (env : Collaborators W).

(** [loop_run provider tools final_response remaining t v]: the loop, entered
    with [remaining] iterations left, makes the calls [t] and leaves [v] in
    [final_response].  One rule per way an iteration can go. *)
Inductive loop_run (provider : Provider) (tools : list (string * Tool))
    (final_response : option string)
    : nat -> list Action -> option string -> Prop :=
| run_exhausted :
    loop_run provider tools final_response 0 [] final_response
| run_failed remaining messages w e result :
    (provider_complete env provider messages (dict_values tools) w).1 = Raised e →
    loop_run provider tools final_response (S remaining)
      [ContextGetMessages messages;
       ProviderComplete provider messages (dict_values tools) (Raised e);
       HooksEmit "error:provider"
         [("error_type", VStr "completion_failed");
          ("error_message", VStr e);
          ("severity", VStr "high")] result]
      (Some ("Error getting response: " +:+ e))
| run_answered remaining messages w response w' :
    (provider_complete env provider messages (dict_values tools) w).1
      = Returned response →
    (provider_parse_tool_calls env provider response w').1 = [] →
    loop_run provider tools final_response (S remaining)
      [ContextGetMessages messages;
       ProviderComplete provider messages (dict_values tools) (Returned response);
       ProviderParseToolCalls provider response [];
       ContextAddMessage (assistant_message (resp_content response))]
      (resp_content response)
| run_tools remaining messages w response w' tool_calls w'' check rest v :
    (provider_complete env provider messages (dict_values tools) w).1
      = Returned response →
    (provider_parse_tool_calls env provider response w').1 = tool_calls →
    tool_calls ≠ [] →
    compaction_shape check →
    loop_run provider tools final_response remaining rest v →
    loop_run provider tools final_response (S remaining)
      ([ContextGetMessages messages;
        ProviderComplete provider messages (dict_values tools) (Returned response);
        ProviderParseToolCalls provider response tool_calls;
        ContextAddMessage
          (assistant_tool_calls_message (default "" (resp_content response))
             tool_calls)]
       ++ calls (process_tool_calls env tools tool_calls w'')
       ++ check ++ rest)
      v.

End Runs.

(** ** The compaction discipline, as an automaton over the calls *)

Inductive Phase :=
| Requesting   (* no tool call of the iteration has been taken up yet *)
| Processing   (* the tool calls of the iteration are being processed *)
| Asked        (* [should_compact()] has just answered yes *)
| Announced    (* [context:pre-compact] has just been emitted *)
| Settled.     (* the check of the iteration is over *)

(** The phase after one more call, or [None] when the call is out of place:
    - after a yes, the next call is the [context:pre-compact] emission, and
      the next one again is [compact()]; neither occurs anywhere else;
    - [should_compact()] is asked while tool calls are being processed, which
      ends the processing: once per iteration, after its tool executions;
    - a completion request is made before any tool call is taken up or after
      the check, never between the tool calls and the check;
    - a tool is executed only while tool calls are being processed, which
      starts with the assistant message that carries them. *)
Definition compaction_step (ph : Phase) (a : Action) : option Phase :=
  match ph, a with
  | Asked, HooksEmit event _ _ =>
      if decide (event = "context:pre-compact") then Some Announced else None
  | Asked, _ => None
  | Announced, ContextCompact => Some Settled
  | Announced, _ => None
  | _, ContextCompact => None
  | _, HooksEmit event _ _ =>
      if decide (event = "context:pre-compact") then None else Some ph
  | Processing, ContextShouldCompact b => Some (if b then Asked else Settled)
  | _, ContextShouldCompact _ => None
  | Processing, ProviderComplete _ _ _ _ => None
  | _, ProviderComplete _ _ _ _ => Some Requesting
  | Processing, ToolExecute _ _ _ => Some Processing
  | _, ToolExecute _ _ _ => None
  | Requesting, ContextAddMessage m =>
      Some (match msg_tool_calls m with
            | Some _ => Processing
            | None => Requesting
            end)
  | _, ContextAddMessage _ => Some ph
  | _, ContextGetMessages _ => Some ph
  | _, ProviderParseToolCalls _ _ _ => Some ph
  end.

Fixpoint compaction_run (ph : Phase) (t : list Action) : option Phase :=
  match t with
  | [] => Some ph
  | a :: t' =>
      match compaction_step ph a with
      | Some ph' => compaction_run ph' t'
      | None => None
      end
  end.

(** A session is in order when every call is in place and it ends with no
    tool processing and no compaction left half-way. *)
Definition compaction_in_order (t : list Action) : bool :=
  match compaction_run Requesting t with
  | Some Requesting | Some Settled => true
  | _ => false
  end.

(** ** Sample collaborators

    A small world to run the orchestrator in: the context keeps the list of
    messages, the hooks answer by a fixed policy, and the provider answers its
    n-th completion request from a script. *)
Module Sample.

Record World := mkWorld {
  stored : list Message;
  turn : nat
}.

Record Scenario := mkScenario {
  policy : string -> Payload -> HookResult;
  script : nat -> Outcome Response * list ToolCall;
  behaviour : Tool -> Any -> Outcome ToolResult;
  capacity : nat
}.

Definition allow : HookResult := mkHookResult "allow" None None.
Definition deny (reason : option string) : HookResult := mkHookResult "deny" reason None.
Definition modify (data : option (gmap string string)) : HookResult :=
  mkHookResult "modify" None data.

(** A plain rendering of the values the samples use. *)
Definition render (a : Any) : string :=
  match a with
  | PyNone => "None"
  | PyStr s => s
  | PyDict [(k, PyStr v)] => "{'" +:+ k +:+ "': '" +:+ v +:+ "'}"
  | PyDict _ => "{...}"
  | PyObj _ => "<object>"
  end.

Definition collaborators (s : Scenario) : Collaborators World :=
  {| hooks_emit event payload w := (policy s event payload, w);
     context_add_message m w := mkWorld (stored w ++ [m]) (turn w);
     context_get_messages w := (stored w, w);
     context_should_compact w := (bool_decide (capacity s < length (stored w)), w);
     context_compact w := mkWorld (drop (length (stored w) - 1) (stored w)) (turn w);
     provider_complete _ _ _ w := ((script s (turn w)).1, mkWorld (stored w) (S (turn w)));
     provider_parse_tool_calls _ _ w := ((script s (pred (turn w))).2, w);
     tool_execute t a w := (behaviour s t a, w);
     py_str := render |}.

Definition fresh : World := mkWorld [] 0.

Definition echo : Tool := ToolObj 1.
Definition search : Tool := ToolObj 2.
Definition tools : list (string * Tool) := [("echo", echo); ("search", search)].
Definition providers : list (string * Provider) := [("main", ProviderObj 0)].

Definition call_echo : ToolCall := mkToolCall "echo" (PyStr "hi") "call-1".
Definition call_missing : ToolCall := mkToolCall "missing" PyNone "call-2".

Definition echo_back (t : Tool) (a : Any) : Outcome ToolResult :=
  match t with
  | ToolObj 1 => Returned (mkToolResult true a PyNone)
  | _ => Raised "boom"
  end.

(** The provider asks for [calls] at every turn. *)
Definition always_calls (tool_calls : list ToolCall) (n : nat)
    : Outcome Response * list ToolCall :=
  (Returned (mkResponse None), tool_calls).

(** The provider asks for [calls] at the first turn and answers at the next. *)
Definition calls_then_answers (tool_calls : list ToolCall) (answer : string) (n : nat)
    : Outcome Response * list ToolCall :=
  match n with
  | 0 => (Returned (mkResponse None), tool_calls)
  | _ => (Returned (mkResponse (Some answer)), [])
  end.

(** The provider raises at its second turn. *)
Definition calls_then_raises (tool_calls : list ToolCall) (n : nat)
    : Outcome Response * list ToolCall :=
  match n with
  | 0 => (Returned (mkResponse None), tool_calls)
  | _ => (Raised "timeout", [])
  end.

Definition allow_all (event : string) (payload : Payload) : HookResult := allow.

(** A scheduler that vetoes every selection. *)
Definition veto_selecting (event : string) (payload : Payload) : HookResult :=
  if decide (event = "tool:selecting") then deny (Some "not now") else allow.

(** A hook that vetoes at [tool:pre]. *)
Definition veto_pre (event : string) (payload : Payload) : HookResult :=
  if decide (event = "tool:pre") then deny None else allow.

(** A scheduler that redirects every selection to [name]. *)
Definition redirect (name : string) (event : string) (payload : Payload) : HookResult :=
  if decide (event = "tool:selecting") then modify (Some {[ "tool" := name ]}) else allow.

(** A scheduler that redirects to [name] and a hook that vetoes at [tool:pre]. *)
Definition redirect_then_veto (name : string) (event : string) (payload : Payload)
    : HookResult :=
  if decide (event = "tool:selecting") then modify (Some {[ "tool" := name ]})
  else if decide (event = "tool:pre") then deny None
  else allow.

Definition orchestrator (n : Z) : EventDrivenOrchestrator := mkOrchestrator n None.

(** The scenarios of the examples. *)
Definition helpful : Scenario :=
  mkScenario allow_all (calls_then_answers [call_echo; call_missing] "done") echo_back 100.
Definition failing : Scenario :=
  mkScenario allow_all (calls_then_raises [call_echo]) echo_back 100.
Definition insistent : Scenario :=
  mkScenario allow_all (always_calls [call_echo]) echo_back 100.
Definition vetoed : Scenario :=
  mkScenario veto_selecting (always_calls [call_echo]) echo_back 100.
Definition vetoed_late : Scenario :=
  mkScenario veto_pre (always_calls [call_echo]) echo_back 100.
Definition redirected : Scenario :=
  mkScenario (redirect "search") (always_calls [call_echo]) echo_back 100.
Definition redirected_vetoed : Scenario :=
  mkScenario (redirect_then_veto "search") (always_calls [call_echo]) echo_back 100.

(** What the context holds when [failing] is asked for its second completion. *)
Definition failing_messages : list Message :=
  [user_message "hello";
   assistant_tool_calls_message "" [call_echo];
   tool_message "echo" "call-1" "hi"].

(** Two providers, and orchestrators that prefer one of them. *)
Definition backup : Provider := ProviderObj 7.
Definition two_providers : list (string * Provider) :=
  [("main", ProviderObj 0); ("backup", backup)].
Definition preferring (name : string) : EventDrivenOrchestrator :=
  mkOrchestrator 5 (Some name).

Definition call_search : ToolCall := mkToolCall "search" (PyStr "rocq") "call-3".

(** A scheduler that answers with an action the orchestrator does not know,
    and with data all the same. *)
Definition defer (event : string) (payload : Payload) : HookResult :=
  if decide (event = "tool:selecting")
  then mkHookResult "defer" None (Some {[ "tool" := "search" ]})
  else allow.
Definition deferring : Scenario :=
  mkScenario defer (always_calls [call_echo]) echo_back 100.

End Sample.

(** ** Laws of the monad *)

Section MonadLaws.
Context {W : Type}.

Lemma bind_value {A B} (m : M W A) (k : A -> M W B) w :
  value (bind m k w) = value (k (value (m w)) (world (m w))).
Proof.
  unfold bind, value, world. destruct (m w) as [[a w1] t1]; simpl.
  by destruct (k a w1) as [[b w2] t2].
Qed.

Lemma bind_world {A B} (m : M W A) (k : A -> M W B) w :
  world (bind m k w) = world (k (value (m w)) (world (m w))).
Proof.
  unfold bind, value, world. destruct (m w) as [[a w1] t1]; simpl.
  by destruct (k a w1) as [[b w2] t2].
Qed.

Lemma bind_calls {A B} (m : M W A) (k : A -> M W B) w :
  calls (bind m k w) = calls (m w) ++ calls (k (value (m w)) (world (m w))).
Proof.
  unfold bind, value, world, calls. destruct (m w) as [[a w1] t1]; simpl.
  by destruct (k a w1) as [[b w2] t2].
Qed.

Lemma ret_value {A} (a : A) (w : W) : value (ret a w) = a.
Proof. done. Qed.

Lemma ret_world {A} (a : A) (w : W) : world (ret a w) = w.
Proof. done. Qed.

Lemma ret_calls {A} (a : A) (w : W) : calls (ret a w) = [].
Proof. done. Qed.

End MonadLaws.

Section Primitives.
Context {W : Type} (env : Collaborators W).

Lemma emit_value event payload w :
  value (emit env event payload w) = (hooks_emit env event payload w).1.
Proof. unfold emit, value. by destruct (hooks_emit _ _ _ _). Qed.

Lemma emit_world event payload w :
  world (emit env event payload w) = (hooks_emit env event payload w).2.
Proof. unfold emit, world. by destruct (hooks_emit _ _ _ _). Qed.

Lemma emit_calls event payload w :
  calls (emit env event payload w)
  = [HooksEmit event payload (hooks_emit env event payload w).1].
Proof. unfold emit, calls. by destruct (hooks_emit _ _ _ _). Qed.

Lemma add_message_world m w :
  world (add_message env m w) = context_add_message env m w.
Proof. done. Qed.

Lemma add_message_calls m w :
  calls (add_message env m w) = [ContextAddMessage m].
Proof. done. Qed.

Lemma get_messages_value w :
  value (get_messages env w) = (context_get_messages env w).1.
Proof. unfold get_messages, value. by destruct (context_get_messages _ _). Qed.

Lemma get_messages_world w :
  world (get_messages env w) = (context_get_messages env w).2.
Proof. unfold get_messages, world. by destruct (context_get_messages _ _). Qed.

Lemma get_messages_calls w :
  calls (get_messages env w) = [ContextGetMessages (context_get_messages env w).1].
Proof. unfold get_messages, calls. by destruct (context_get_messages _ _). Qed.

Lemma should_compact_value w :
  value (should_compact env w) = (context_should_compact env w).1.
Proof. unfold should_compact, value. by destruct (context_should_compact _ _). Qed.

Lemma should_compact_world w :
  world (should_compact env w) = (context_should_compact env w).2.
Proof. unfold should_compact, world. by destruct (context_should_compact _ _). Qed.

Lemma should_compact_calls w :
  calls (should_compact env w)
  = [ContextShouldCompact (context_should_compact env w).1].
Proof. unfold should_compact, calls. by destruct (context_should_compact _ _). Qed.

Lemma compact_world w : world (compact env w) = context_compact env w.
Proof. done. Qed.

Lemma compact_calls w : calls (compact env w) = [ContextCompact].
Proof. done. Qed.

Lemma complete_value p ms ts w :
  value (complete env p ms ts w) = (provider_complete env p ms ts w).1.
Proof. unfold complete, value. by destruct (provider_complete _ _ _ _ _). Qed.

Lemma complete_world p ms ts w :
  world (complete env p ms ts w) = (provider_complete env p ms ts w).2.
Proof. unfold complete, world. by destruct (provider_complete _ _ _ _ _). Qed.

Lemma complete_calls p ms ts w :
  calls (complete env p ms ts w)
  = [ProviderComplete p ms ts (provider_complete env p ms ts w).1].
Proof. unfold complete, calls. by destruct (provider_complete _ _ _ _ _). Qed.

Lemma parse_tool_calls_value p r w :
  value (parse_tool_calls env p r w) = (provider_parse_tool_calls env p r w).1.
Proof. unfold parse_tool_calls, value. by destruct (provider_parse_tool_calls _ _ _ _). Qed.

Lemma parse_tool_calls_world p r w :
  world (parse_tool_calls env p r w) = (provider_parse_tool_calls env p r w).2.
Proof. unfold parse_tool_calls, world. by destruct (provider_parse_tool_calls _ _ _ _). Qed.

Lemma parse_tool_calls_calls p r w :
  calls (parse_tool_calls env p r w)
  = [ProviderParseToolCalls p r (provider_parse_tool_calls env p r w).1].
Proof. unfold parse_tool_calls, calls. by destruct (provider_parse_tool_calls _ _ _ _). Qed.

Lemma execute_tool_value t a w :
  value (execute_tool env t a w) = (tool_execute env t a w).1.
Proof. unfold execute_tool, value. by destruct (tool_execute _ _ _ _). Qed.

Lemma execute_tool_world t a w :
  world (execute_tool env t a w) = (tool_execute env t a w).2.
Proof. unfold execute_tool, world. by destruct (tool_execute _ _ _ _). Qed.

Lemma execute_tool_calls t a w :
  calls (execute_tool env t a w) = [ToolExecute t a (tool_execute env t a w).1].
Proof. unfold execute_tool, calls. by destruct (tool_execute _ _ _ _). Qed.

End Primitives.

Create Rewrite HintDb orch.
#[export] Hint Rewrite @bind_value @bind_world @bind_calls
  @ret_value @ret_world @ret_calls
  @emit_value @emit_world @emit_calls
  @add_message_world @add_message_calls
  @get_messages_value @get_messages_world @get_messages_calls
  @should_compact_value @should_compact_world @should_compact_calls
  @compact_world @compact_calls
  @complete_value @complete_world @complete_calls
  @parse_tool_calls_value @parse_tool_calls_world @parse_tool_calls_calls
  @execute_tool_value @execute_tool_world @execute_tool_calls : orch.

(** Push the three projections through a computation, one call at a time. *)
Ltac step := autorewrite with orch; cbn beta iota.

(** A name is not in a list of other names. *)
Ltac absent :=
  let Hin := fresh "Hin" in
  intros Hin;
  repeat (apply elem_of_cons in Hin as [? | Hin]; [discriminate |]);
  by apply elem_of_nil in Hin.

Lemma appended_app t1 t2 : appended (t1 ++ t2) = appended t1 ++ appended t2.
Proof. apply omap_app. Qed.

Lemma emitted_app t1 t2 : emitted (t1 ++ t2) = emitted t1 ++ emitted t2.
Proof. apply omap_app. Qed.

Lemma executed_app t1 t2 : executed (t1 ++ t2) = executed t1 ++ executed t2.
Proof. apply omap_app. Qed.

Lemma payloads_of_app event t1 t2 :
  payloads_of event (t1 ++ t2) = payloads_of event t1 ++ payloads_of event t2.
Proof. apply omap_app. Qed.

Lemma count_app kind t1 t2 : count kind (t1 ++ t2) = count kind t1 + count kind t2.
Proof. unfold count. by rewrite List.filter_app, length_app. Qed.

(** ** The calls of one tool call *)

Section ToolCalls.
Context {W : Type} (env : Collaborators W).

Lemma process_tool_call_deny tools tool_call w :
  hr_action (selecting_verdict env tools tool_call w) = "deny" →
  process_tool_call env tools tool_call w
  = (emit env "tool:selecting" (selecting_payload tools tool_call) ;;
     add_message env
       (tool_message (tc_tool tool_call) (tc_id tool_call)
          ("Error: " +:+ py_or (hr_reason (selecting_verdict env tools tool_call w))
                           "Tool execution denied by scheduler")))%orch w.
Proof.
  unfold selecting_verdict, process_tool_call, bind, emit. intros Hdeny.
  destruct (hooks_emit env _ _ w) as [hook_result w1]; simpl in *.
  by rewrite decide_True.
Qed.

Lemma process_tool_call_pass tools tool_call w :
  hr_action (selecting_verdict env tools tool_call w) ≠ "deny" →
  process_tool_call env tools tool_call w
  = (emit env "tool:selecting" (selecting_payload tools tool_call) ;;
     after_selecting env tools tool_call (selecting_verdict env tools tool_call w))%orch w.
Proof.
  unfold selecting_verdict, process_tool_call, bind, emit. intros Hpass.
  destruct (hooks_emit env _ _ w) as [hook_result w1]; simpl in *.
  by rewrite decide_False.
Qed.

Lemma run_tool_phase tool_name tool tool_call w :
  Forall tool_phase_action (calls (run_tool env tool_name tool tool_call w)).
Proof.
  unfold run_tool. step.
  destruct (tool_execute env tool (tc_arguments tool_call) w).1; step;
    repeat constructor.
Qed.

Lemma after_selecting_phase tools tool_call hook_result w :
  Forall tool_phase_action (calls (after_selecting env tools tool_call hook_result w)).
Proof.
  unfold after_selecting, tool_not_found. step.
  case_decide; step; [repeat constructor |].
  case_match; step; [| repeat constructor].
  repeat (apply Forall_app; split); try (repeat constructor).
  apply run_tool_phase.
Qed.

Lemma process_tool_call_phase tools tool_call w :
  Forall tool_phase_action (calls (process_tool_call env tools tool_call w)).
Proof.
  unfold process_tool_call. step.
  case_decide; step; [repeat constructor |].
  apply Forall_app; split; [repeat constructor | apply after_selecting_phase].
Qed.

Lemma process_tool_calls_phase tools tool_calls w :
  Forall tool_phase_action (calls (process_tool_calls env tools tool_calls w)).
Proof.
  revert w. induction tool_calls as [| tool_call rest IH]; intros w; simpl.
  - constructor.
  - step. apply Forall_app; split; [apply process_tool_call_phase | apply IH].
Qed.

End ToolCalls.

Lemma count_outside_phase (kind : Action -> bool) (t : list Action) :
  (∀ a, tool_phase_action a → kind a = false) →
  Forall tool_phase_action t → count kind t = 0.
Proof.
  intros Hkind Ht. unfold count. induction Ht as [| a t Ha _ IH]; simpl; [done |].
  by rewrite (Hkind a Ha).
Qed.

(** ** The tool-selection protocol *)

Section Selection.
Context {W : Type} (env : Collaborators W).

Lemma run_tool_appended tool_name tool tool_call w :
  ∃ content,
    appended (calls (run_tool env tool_name tool tool_call w))
    = [tool_message tool_name (tc_id tool_call) content].
Proof.
  unfold run_tool. step.
  destruct (tool_execute env tool (tc_arguments tool_call) w).1; step;
    eexists; simpl; reflexivity.
Qed.

Lemma process_tool_call_appended tools tool_call w :
  ∃ name content,
    appended (calls (process_tool_call env tools tool_call w))
    = [tool_message name (tc_id tool_call) content].
Proof.
  unfold process_tool_call, after_selecting, tool_not_found. step.
  case_decide; step; [do 2 eexists; simpl; reflexivity |].
  case_decide; step; [do 2 eexists; simpl; reflexivity |].
  case_match; step; [| do 2 eexists; simpl; reflexivity].
  rewrite !appended_app. simpl. eexists. apply run_tool_appended.
Qed.

(** The messages appended while tool calls are processed are, call by call
    and in order, one tool-role message carrying that call's id. *)
Lemma process_tool_calls_replies (tools : list (string * Tool))
    (tool_calls : list ToolCall) (w : W) :
  Forall2 replies_to tool_calls
    (appended (calls (process_tool_calls env tools tool_calls w))).
Proof.
  revert w. induction tool_calls as [| tool_call rest IH]; intros w; simpl.
  - constructor.
  - step. rewrite appended_app.
    destruct (process_tool_call_appended tools tool_call w)
      as (name & content & ->).
    simpl. constructor; [by split | apply IH].
Qed.

(** C3.  When [tool:selecting] answers "deny" for a tool call, the calls made
    for it are the [tool:selecting] emission and the appending of one
    tool-role message with content "Error: " followed by the reason, or by
    "Tool execution denied by scheduler" when there is none: no tool is
    executed, neither [tool:pre] nor [tool:post] is emitted, and the loop goes
    on with the calls that remain. *)
Theorem selecting_deny_skips_the_tool (tools : list (string * Tool))
    (tool_call : ToolCall) (rest : list ToolCall) (w : W) :
  hr_action (selecting_verdict env tools tool_call w) = "deny" →
  let verdict := selecting_verdict env tools tool_call w in
  let reply :=
    tool_message (tc_tool tool_call) (tc_id tool_call)
      ("Error: " +:+ py_or (hr_reason verdict) "Tool execution denied by scheduler") in
  let this_call := calls (process_tool_call env tools tool_call w) in
  this_call
  = [HooksEmit "tool:selecting" (selecting_payload tools tool_call) verdict;
     ContextAddMessage reply]
  ∧ executed this_call = []
  ∧ ("tool:pre" ∉ emitted this_call)
  ∧ ("tool:post" ∉ emitted this_call)
  ∧ calls (process_tool_calls env tools (tool_call :: rest) w)
    = this_call
      ++ calls (process_tool_calls env tools rest
                  (context_add_message env reply
                     (after_selecting_world env tools tool_call w))).
Proof.
  intros Hdeny verdict reply this_call.
  assert (Hcalls : this_call
    = [HooksEmit "tool:selecting" (selecting_payload tools tool_call) verdict;
       ContextAddMessage reply]).
  { unfold this_call. rewrite process_tool_call_deny by done. by step. }
  assert (Hworld : world (process_tool_call env tools tool_call w)
    = context_add_message env reply (after_selecting_world env tools tool_call w)).
  { rewrite process_tool_call_deny by done. by step. }
  split; [done |]. rewrite Hcalls. simpl.
  split; [done |].
  split; [absent |].
  split; [absent |].
  step. fold this_call. by rewrite Hworld, Hcalls.
Qed.

(** The calls of one tool call, stage by stage. *)
Lemma process_tool_call_calls tools tool_call w :
  calls (process_tool_call env tools tool_call w)
  = HooksEmit "tool:selecting" (selecting_payload tools tool_call)
      (selecting_verdict env tools tool_call w)
    :: (if decide (hr_action (selecting_verdict env tools tool_call w) = "deny")
        then [ContextAddMessage
                (tool_message (tc_tool tool_call) (tc_id tool_call)
                   ("Error: " +:+ py_or (hr_reason (selecting_verdict env tools tool_call w))
                                    "Tool execution denied by scheduler"))]
        else calls (after_selecting env tools tool_call
                      (selecting_verdict env tools tool_call w)
                      (after_selecting_world env tools tool_call w))).
Proof.
  unfold process_tool_call, selecting_verdict, after_selecting_world. step.
  by case_decide.
Qed.

Lemma after_selecting_calls tools tool_call w :
  let verdict := selecting_verdict env tools tool_call w in
  let name := resolved_tool_name verdict tool_call in
  ∃ selected_result,
    calls (after_selecting env tools tool_call verdict
             (after_selecting_world env tools tool_call w))
    = [HooksEmit "tool:selected" (selected_payload verdict tool_call) selected_result;
       HooksEmit "tool:pre"
         (pre_hook_data name (tc_arguments tool_call) (looked_up env tools tool_call w))
         (pre_verdict env tools tool_call w)]
      ++ (if decide (hr_action (pre_verdict env tools tool_call w) = "deny")
          then [ContextAddMessage
                  (tool_message name (tc_id tool_call)
                     ("Error: " +:+ py_or (hr_reason (pre_verdict env tools tool_call w))
                                      "Tool execution denied"))]
          else match looked_up env tools tool_call w with
               | None =>
                   calls (tool_not_found env name tool_call
                            (pre_emit env tools tool_call w).2)
               | Some tool =>
                   calls (run_tool env name tool tool_call
                            (pre_emit env tools tool_call w).2)
               end).
Proof.
  intros verdict name. eexists.
  unfold after_selecting, pre_verdict, pre_emit, looked_up. step.
  fold verdict. fold name.
  case_decide; step; [done |].
  by case_match.
Qed.

Lemma tool_not_found_calls tool_name tool_call w :
  ∃ result,
    calls (tool_not_found env tool_name tool_call w)
    = [ContextAddMessage
         (tool_message tool_name (tc_id tool_call)
            ("Error: Tool " +:+ tool_name +:+ " not found"));
       HooksEmit "error:tool"
         [("error_type", VStr "tool_not_found");
          ("error_message", VStr ("Tool " +:+ tool_name +:+ " not found"));
          ("severity", VStr "medium")] result].
Proof. unfold tool_not_found. step. by eexists. Qed.

Lemma run_tool_calls tool_name tool tool_call w :
  ∃ outcome after,
    calls (run_tool env tool_name tool tool_call w)
    = ToolExecute tool (tc_arguments tool_call) outcome :: after
    ∧ executed after = []
    ∧ emitted after = match outcome with
                      | Returned _ => ["tool:post"]
                      | Raised _ => ["error:tool"; "tool:post"]
                      end.
Proof.
  unfold run_tool. step. do 2 eexists. split; [reflexivity |].
  by destruct (tool_execute env tool (tc_arguments tool_call) w).1; step.
Qed.

Lemma payloads_of_absent event t : event ∉ emitted t → payloads_of event t = [].
Proof.
  induction t as [| a t IH]; [done |].
  destruct a; simpl; try exact IH.
  intros Hnot. apply not_elem_of_cons in Hnot as [Hne Hnot].
  rewrite decide_False by done. by apply IH.
Qed.

(** What one tool call emits and executes, by the two verdicts and the
    lookup. *)
Lemma process_tool_call_emitted tools tool_call w :
  emitted (calls (process_tool_call env tools tool_call w))
  = if decide (hr_action (selecting_verdict env tools tool_call w) = "deny")
    then ["tool:selecting"]
    else ["tool:selecting"; "tool:selected"; "tool:pre"]
         ++ if decide (hr_action (pre_verdict env tools tool_call w) = "deny")
            then []
            else match looked_up env tools tool_call w with
                 | None => ["error:tool"]
                 | Some tool =>
                     emitted (calls (run_tool env
                       (resolved_tool_name (selecting_verdict env tools tool_call w) tool_call)
                       tool tool_call (pre_emit env tools tool_call w).2))
                 end.
Proof.
  rewrite process_tool_call_calls. case_decide; [done |].
  destruct (after_selecting_calls tools tool_call w) as [selected_result ->].
  simpl. do 3 f_equal. case_decide; [done |].
  case_match; [done |].
  by destruct (tool_not_found_calls
    (resolved_tool_name (selecting_verdict env tools tool_call w) tool_call)
    tool_call (pre_emit env tools tool_call w).2) as [result ->].
Qed.

Lemma process_tool_call_executed tools tool_call w :
  executed (calls (process_tool_call env tools tool_call w))
  = if decide (hr_action (selecting_verdict env tools tool_call w) = "deny") then []
    else if decide (hr_action (pre_verdict env tools tool_call w) = "deny") then []
    else option_list (looked_up env tools tool_call w).
Proof.
  rewrite process_tool_call_calls. case_decide; [done |].
  destruct (after_selecting_calls tools tool_call w) as [selected_result ->].
  simpl. case_decide; [done |].
  case_match; simpl.
  - destruct (run_tool_calls
      (resolved_tool_name (selecting_verdict env tools tool_call w) tool_call)
      t tool_call (pre_emit env tools tool_call w).2)
      as (outcome & after & -> & Hafter & _).
    simpl. by rewrite Hafter.
  - by destruct (tool_not_found_calls
      (resolved_tool_name (selecting_verdict env tools tool_call w) tool_call)
      tool_call (pre_emit env tools tool_call w).2) as [result ->].
Qed.

Lemma run_tool_emitted tool_name tool tool_call w event :
  event ∈ emitted (calls (run_tool env tool_name tool tool_call w)) →
  event = "error:tool" ∨ event = "tool:post".
Proof.
  destruct (run_tool_calls tool_name tool tool_call w)
    as (outcome & after & -> & _ & Hafter).
  simpl. rewrite Hafter.
  destruct outcome; rewrite ?elem_of_cons, elem_of_nil; tauto.
Qed.

(** C10.  For a tool call whose resolved tool is not in the tools mapping,
    a "deny" from [tool:pre] wins over the not-found branch: the one message
    appended is the tool-role message "Error: " followed by the reason, or by
    "Tool execution denied" when there is none, and no [error:tool] event is
    emitted (the events of the call are [tool:selecting], [tool:selected] and
    [tool:pre], whose payload has no tool object). *)
Theorem pre_deny_wins_over_not_found (tools : list (string * Tool))
    (tool_call : ToolCall) (w : W) :
  hr_action (selecting_verdict env tools tool_call w) ≠ "deny" →
  looked_up env tools tool_call w = None →
  hr_action (pre_verdict env tools tool_call w) = "deny" →
  let name := resolved_tool_name (selecting_verdict env tools tool_call w) tool_call in
  let this_call := calls (process_tool_call env tools tool_call w) in
  appended this_call
  = [tool_message name (tc_id tool_call)
       ("Error: " +:+ py_or (hr_reason (pre_verdict env tools tool_call w))
                        "Tool execution denied")]
  ∧ emitted this_call = ["tool:selecting"; "tool:selected"; "tool:pre"]
  ∧ ("error:tool" ∉ emitted this_call)
  ∧ payloads_of "tool:pre" this_call
    = [[("tool", VStr name); ("arguments", VAny (tc_arguments tool_call))]]
  ∧ executed this_call = [].
Proof.
  intros Hpass Hmissing Hdeny name this_call.
  assert (Hemitted : emitted this_call = ["tool:selecting"; "tool:selected"; "tool:pre"]).
  { unfold this_call. rewrite process_tool_call_emitted.
    by rewrite decide_False, decide_True. }
  split; [| split; [done | split; [rewrite Hemitted; absent | split]]].
  - unfold this_call. rewrite process_tool_call_calls, decide_False by done.
    destruct (after_selecting_calls tools tool_call w) as [selected_result ->].
    by rewrite decide_True.
  - unfold this_call. rewrite process_tool_call_calls, decide_False by done.
    destruct (after_selecting_calls tools tool_call w) as [selected_result ->].
    by rewrite decide_True, Hmissing.
  - unfold this_call. rewrite process_tool_call_executed.
    by rewrite decide_False, decide_True.
Qed.

(** The [tool:pre] payloads of one tool call. *)
Lemma process_tool_call_pre_payloads (tools : list (string * Tool))
    (tool_call : ToolCall) (w : W) :
  let verdict := selecting_verdict env tools tool_call w in
  let payload :=
    pre_hook_data (resolved_tool_name verdict tool_call) (tc_arguments tool_call)
      (looked_up env tools tool_call w) in
  payloads_of "tool:pre" (calls (process_tool_call env tools tool_call w))
  = (if decide (hr_action verdict = "deny") then [] else [payload]).
Proof.
  intros verdict payload.
  rewrite process_tool_call_calls.
  destruct (after_selecting_calls tools tool_call w) as [selected_result ->].
  fold verdict payload. case_decide; [done |]. simpl. f_equal.
  apply payloads_of_absent. case_decide; [absent |].
  case_match.
  - intros [? | ?]%run_tool_emitted; discriminate.
  - destruct (tool_not_found_calls (resolved_tool_name verdict tool_call)
      tool_call (pre_emit env tools tool_call w).2) as [result ->].
    simpl. absent.
Qed.

(** C9, as the code has it.  [tool:pre] is emitted once for every tool call
    that [tool:selecting] did not deny, whether or not the resolved tool is in
    the tools mapping, and never for a call that [tool:selecting] denied; what
    depends on the tool being found is the key ["tool_obj"] of the payload,
    which is there exactly when the lookup found a tool. *)
Theorem pre_event_for_every_selected_call (tools : list (string * Tool))
    (tool_call : ToolCall) (w : W) :
  let verdict := selecting_verdict env tools tool_call w in
  let payload :=
    pre_hook_data (resolved_tool_name verdict tool_call) (tc_arguments tool_call)
      (looked_up env tools tool_call w) in
  payloads_of "tool:pre" (calls (process_tool_call env tools tool_call w))
  = (if decide (hr_action verdict = "deny") then [] else [payload])
  ∧ dict_get "tool_obj" payload = VTool <$> looked_up env tools tool_call w.
Proof.
  intros verdict payload. split; [apply process_tool_call_pre_payloads |].
  unfold payload. by destruct (looked_up _ _ _ _).
Qed.

(** C4, as the code has it.  When [tool:selecting] answers "modify", the
    resolved name is [data["tool"]] if [data] has that key, and the requested
    name if [data] is absent or lacks it; [tool:selected] carries the resolved
    name, source "scheduler" and the requested name as [original_tool]; the
    tool looked up is the one of the resolved name, and it is executed if it
    is found and [tool:pre] does not deny. *)
Theorem modify_redirects_the_call (tools : list (string * Tool))
    (tool_call : ToolCall) (w : W) :
  hr_action (selecting_verdict env tools tool_call w) = "modify" →
  let verdict := selecting_verdict env tools tool_call w in
  let name := resolved_tool_name verdict tool_call in
  let this_call := calls (process_tool_call env tools tool_call w) in
  (∀ data x, hr_data verdict = Some data → data !! "tool" = Some x → name = x)
  ∧ (hr_data verdict = None → name = tc_tool tool_call)
  ∧ (∀ data, hr_data verdict = Some data → data !! "tool" = None →
       name = tc_tool tool_call)
  ∧ payloads_of "tool:selected" this_call
    = [[("tool", VStr name); ("source", VStr "scheduler");
        ("original_tool", VStr (tc_tool tool_call))]]
  ∧ payloads_of "tool:pre" this_call
    = [pre_hook_data name (tc_arguments tool_call) (dict_get name tools)]
  ∧ executed this_call
    = if decide (hr_action (pre_verdict env tools tool_call w) = "deny") then []
      else option_list (dict_get name tools).
Proof.
  intros Hmodify verdict name this_call.
  assert (Hpass : hr_action verdict ≠ "deny") by (unfold verdict; by rewrite Hmodify).
  assert (Hname : name = modified_tool_name verdict (tc_tool tool_call)).
  { unfold name, resolved_tool_name. by rewrite decide_True. }
  split; [| split; [| split; [| split; [| split]]]].
  - intros data x Hdata Hx. rewrite Hname. unfold modified_tool_name.
    rewrite Hdata. case_decide as Hempty; [| by rewrite Hx].
    subst data. by rewrite lookup_empty in Hx.
  - intros Hdata. rewrite Hname. unfold modified_tool_name. by rewrite Hdata.
  - intros data Hdata Hx. rewrite Hname. unfold modified_tool_name.
    rewrite Hdata, Hx. by case_decide.
  - unfold this_call. rewrite process_tool_call_calls.
    destruct (after_selecting_calls tools tool_call w) as [selected_result ->].
    fold verdict name. rewrite decide_False by done.
    unfold selected_payload. fold name. simpl.
    rewrite !decide_True by done. f_equal.
    apply payloads_of_absent. case_decide; [absent |].
    case_match.
    + intros [? | ?]%run_tool_emitted; discriminate.
    + destruct (tool_not_found_calls name tool_call (pre_emit env tools tool_call w).2)
        as [result ->].
      simpl. absent.
  - pose proof (process_tool_call_pre_payloads tools tool_call w) as Hpre.
    unfold this_call. rewrite Hpre. fold verdict. by rewrite decide_False.
  - unfold this_call. rewrite process_tool_call_executed. fold verdict.
    by rewrite decide_False.
Qed.

End Selection.

(** ** Every execution of the loop is a run *)

Section LoopRuns.
Context {W : Type} (env : Collaborators W).

Lemma compaction_check_shape w : compaction_shape (calls (compaction_check env w)).
Proof.
  unfold compaction_check. step.
  destruct (context_should_compact env w).1; step; constructor.
Qed.

Lemma map_tool_call_id (tool_calls : list ToolCall) :
  map (fun tc => mkToolCall (tc_tool tc) (tc_arguments tc) (tc_id tc)) tool_calls
  = tool_calls.
Proof. induction tool_calls as [| [] ? IH]; simpl; by rewrite ?IH. Qed.

(** Every execution of the loop is such a run. *)
Lemma while_loop_run provider tools remaining final_response w :
  loop_run env provider tools final_response remaining
    (calls (while_loop env provider tools remaining final_response w))
    (value (while_loop env provider tools remaining final_response w)).
Proof.
  revert w. induction remaining as [| remaining IH]; intros w; simpl.
  - constructor.
  - step.
    destruct (provider_complete env provider _ _ _).1 as [response | e] eqn:Hcomplete;
      step.
    + destruct (provider_parse_tool_calls env provider response _).1
        as [| tool_call tool_calls] eqn:Hparse; step.
      * simpl. by eapply run_answered.
      * rewrite map_tool_call_id. simpl.
        eapply run_tools with (tool_calls := tool_call :: tool_calls);
          [done | done | done | apply compaction_check_shape | apply IH].
    + simpl. by eapply run_failed.
Qed.

(** The calls and the value of [execute], around those of the loop. *)
Lemma execute_calls self prompt providers tools w :
  ∃ started,
    match select_provider self providers with
    | None =>
        calls (execute env self prompt providers tools w)
        = [HooksEmit "session:start" [("prompt", VStr prompt)] started;
           ContextAddMessage (user_message prompt)]
        ∧ value (execute env self prompt providers tools w)
          = Some "Error: No providers available"
    | Some provider =>
        ∃ t v ended,
          loop_run env provider tools (Some "") (Z.to_nat (max_iterations self)) t v
          ∧ calls (execute env self prompt providers tools w)
            = [HooksEmit "session:start" [("prompt", VStr prompt)] started;
               ContextAddMessage (user_message prompt)]
              ++ t ++ [HooksEmit "session:end" [("response", val_of_opt v)] ended]
          ∧ value (execute env self prompt providers tools w) = v
    end.
Proof.
  unfold execute. eexists. destruct (select_provider self providers); step.
  - do 3 eexists. split; [apply while_loop_run |]. split; [| done].
    simpl. reflexivity.
  - done.
Qed.

End LoopRuns.

(** ** The session *)

Section Session.
Context {W : Type} (env : Collaborators W).

(** A call of another kind is not among the calls of the tool phase. *)
Lemma not_in_tool_phase tools tool_calls w a :
  tool_phase_action a = false →
  a ∉ calls (process_tool_calls env tools tool_calls w).
Proof.
  intros Hkind Hin.
  pose proof (process_tool_calls_phase env tools tool_calls w) as Hphase.
  rewrite Forall_forall in Hphase. specialize (Hphase a Hin).
  by rewrite Hkind in Hphase.
Qed.

Lemma count_tool_phase kind tools tool_calls w :
  (∀ a, tool_phase_action a → kind a = false) →
  count kind (calls (process_tool_calls env tools tool_calls w)) = 0.
Proof. intros Hkind. apply count_outside_phase, process_tool_calls_phase. done. Qed.

Lemma count_compaction_shape kind check :
  compaction_shape check →
  (∀ b, kind (ContextShouldCompact b) = false) →
  (∀ result, kind (HooksEmit "context:pre-compact" [] result) = false) →
  kind ContextCompact = false →
  count kind check = 0.
Proof.
  intros [| result] Hask Hannounce Hcompact; unfold count; simpl;
    by rewrite ?Hask, ?Hannounce, ?Hcompact.
Qed.

(** A raising [complete] is the last but one call of the loop. *)
Lemma loop_run_failure provider tools final_response remaining t v p ms ts e :
  loop_run env provider tools final_response remaining t v →
  ProviderComplete p ms ts (Raised e) ∈ t →
  ∃ before reported,
    t = before
        ++ [ProviderComplete p ms ts (Raised e);
            HooksEmit "error:provider"
              [("error_type", VStr "completion_failed");
               ("error_message", VStr e);
               ("severity", VStr "high")] reported]
    ∧ count (is_emit "error:provider") before = 0
    ∧ v = Some ("Error getting response: " +:+ e).
Proof.
  induction 1 as [| remaining messages w e' result Hcomplete
                  | remaining messages w response w1 Hcomplete Hparse
                  | remaining messages w response w1 tool_calls w2 check rest v
                      Hcomplete Hparse Hcalls Hcheck Hrest IH];
    intros Hin.
  - by apply elem_of_nil in Hin.
  - repeat (apply elem_of_cons in Hin as [Hin | Hin]; [try discriminate |]);
      [| by apply elem_of_nil in Hin].
    injection Hin as -> -> -> ->.
    by exists [ContextGetMessages messages], result.
  - repeat (apply elem_of_cons in Hin as [Hin | Hin]; [try discriminate |]);
      by apply elem_of_nil in Hin.
  - rewrite !elem_of_app in Hin. destruct Hin as [Hin | [Hin | [Hin | Hin]]].
    + repeat (apply elem_of_cons in Hin as [Hin | Hin]; [try discriminate |]);
        by apply elem_of_nil in Hin.
    + by apply not_in_tool_phase in Hin.
    + destruct Hcheck;
        repeat (apply elem_of_cons in Hin as [Hin | Hin]; [try discriminate |]);
        by apply elem_of_nil in Hin.
    + destruct (IH Hin) as (before & reported & -> & Hbefore & ->).
      exists ([ContextGetMessages messages;
               ProviderComplete provider messages (dict_values tools)
                 (Returned response);
               ProviderParseToolCalls provider response tool_calls;
               ContextAddMessage
                 (assistant_tool_calls_message (default "" (resp_content response))
                    tool_calls)]
              ++ calls (process_tool_calls env tools tool_calls w2)
              ++ check ++ before), reported.
      split; [by rewrite <- !List.app_assoc |]. split; [| done].
      rewrite !count_app, Hbefore.
      rewrite count_tool_phase, (count_compaction_shape _ check); try done.
      intros [event ? ? | m | | | | | |] Ha; try done. simpl in *.
      apply bool_decide_unpack in Ha. apply bool_decide_eq_false.
      intros ->. revert Ha. absent.
Qed.

(** An empty parse is the last but one call of the loop. *)
Lemma loop_run_answer provider tools final_response remaining t v p r :
  loop_run env provider tools final_response remaining t v →
  ProviderParseToolCalls p r [] ∈ t →
  ∃ before,
    t = before
        ++ [ProviderParseToolCalls p r [];
            ContextAddMessage (assistant_message (resp_content r))]
    ∧ v = resp_content r.
Proof.
  induction 1 as [| remaining messages w e' result Hcomplete
                  | remaining messages w response w1 Hcomplete Hparse
                  | remaining messages w response w1 tool_calls w2 check rest v
                      Hcomplete Hparse Hcalls Hcheck Hrest IH];
    intros Hin.
  - by apply elem_of_nil in Hin.
  - repeat (apply elem_of_cons in Hin as [Hin | Hin]; [try discriminate |]);
      by apply elem_of_nil in Hin.
  - repeat (apply elem_of_cons in Hin as [Hin | Hin]; [try discriminate |]);
      [| by apply elem_of_nil in Hin].
    injection Hin as -> ->.
    by exists [ContextGetMessages messages;
               ProviderComplete provider messages (dict_values tools)
                 (Returned response)].
  - rewrite !elem_of_app in Hin. destruct Hin as [Hin | [Hin | [Hin | Hin]]].
    + repeat (apply elem_of_cons in Hin as [Hin | Hin]; [try discriminate |]);
        [| by apply elem_of_nil in Hin].
      injection Hin as _ _ Hempty. by rewrite <- Hempty in Hcalls.
    + by apply not_in_tool_phase in Hin.
    + destruct Hcheck;
        repeat (apply elem_of_cons in Hin as [Hin | Hin]; [try discriminate |]);
        by apply elem_of_nil in Hin.
    + destruct (IH Hin) as (before & -> & ->).
      exists ([ContextGetMessages messages;
               ProviderComplete provider messages (dict_values tools)
                 (Returned response);
               ProviderParseToolCalls provider response tool_calls;
               ContextAddMessage
                 (assistant_tool_calls_message (default "" (resp_content response))
                    tool_calls)]
              ++ calls (process_tool_calls env tools tool_calls w2)
              ++ check ++ before).
      split; [by rewrite <- !List.app_assoc | done].
Qed.

(** The messages appended by the loop are answered. *)
Lemma loop_run_answered provider tools final_response remaining t v :
  loop_run env provider tools final_response remaining t v →
  answered (appended t).
Proof.
  induction 1 as [| remaining messages w e result Hcomplete
                  | remaining messages w response w1 Hcomplete Hparse
                  | remaining messages w response w1 tool_calls w2 check rest v
                      Hcomplete Hparse Hcalls Hcheck Hrest IH].
  - constructor.
  - constructor.
  - simpl. by repeat constructor.
  - rewrite !appended_app.
    assert (appended check = []) as -> by by destruct Hcheck.
    simpl. eapply answered_calls; [done | apply process_tool_calls_replies | done].
Qed.

(** C1.  Whatever each call runs into (a denial at [tool:selecting], a denial
    at [tool:pre], a tool that is not found, an execution that raises, a
    success), the messages appended while the tool calls of an assistant
    message are processed are, call by call and in order, one tool-role
    message carrying that call's id: as many replies as calls, and nothing
    else is appended.  Hence in the messages that a session appends, every
    assistant message with tool calls is followed at once by exactly the
    replies to its calls. *)
Theorem one_reply_per_tool_call (self : EventDrivenOrchestrator) (prompt : string)
    (providers : list (string * Provider)) (tools : list (string * Tool)) (w : W) :
  (∀ tool_calls w',
     Forall2 replies_to tool_calls
       (appended (calls (process_tool_calls env tools tool_calls w'))))
  ∧ answered (appended (calls (execute env self prompt providers tools w))).
Proof.
  split; [intros; apply process_tool_calls_replies |].
  destruct (execute_calls env self prompt providers tools w) as [started Hrun].
  destruct (select_provider self providers) as [provider |].
  - destruct Hrun as (t & v & ended & Hloop & -> & _).
    rewrite !appended_app. simpl. rewrite app_nil_r.
    apply answered_plain; [done | done |].
    by eapply loop_run_answered.
  - destruct Hrun as [-> _]. simpl. by repeat constructor.
Qed.

(** C5.  With an empty providers mapping, [execute] emits [session:start]
    with the prompt, appends the user message with the prompt, and returns
    "Error: No providers available": these are its only two calls, so
    [session:end] is not emitted. *)
Theorem no_providers_early_return (self : EventDrivenOrchestrator) (prompt : string)
    (tools : list (string * Tool)) (w : W) :
  let run := execute env self prompt [] tools w in
  value run = Some "Error: No providers available"
  ∧ calls run
    = [HooksEmit "session:start" [("prompt", VStr prompt)]
         (hooks_emit env "session:start" [("prompt", VStr prompt)] w).1;
       ContextAddMessage (user_message prompt)]
  ∧ ("session:end" ∉ emitted (calls run)).
Proof.
  intros run. unfold run, execute. simpl. step.
  split; [done |]. split; [done |]. simpl. absent.
Qed.

(** C2.  If a [complete] call of the session raises, it is followed by the
    emission of [error:provider] with error type "completion_failed", the
    message of the exception and severity "high", then by [session:end] with
    the response "Error getting response: " followed by that message, and by
    nothing else: no tool call is processed and no iteration is run after
    it.  It is the only [error:provider] event of the session, and the
    response is what [execute] returns. *)
Theorem provider_failure_ends_the_session (self : EventDrivenOrchestrator)
    (prompt : string) (providers : list (string * Provider))
    (tools : list (string * Tool)) (w : W)
    (p : Provider) (ms : list Message) (ts : list Tool) (e : string) :
  ProviderComplete p ms ts (Raised e)
    ∈ calls (execute env self prompt providers tools w) →
  let run := execute env self prompt providers tools w in
  (∃ before reported ended,
     calls run
     = before
       ++ [ProviderComplete p ms ts (Raised e);
           HooksEmit "error:provider"
             [("error_type", VStr "completion_failed");
              ("error_message", VStr e);
              ("severity", VStr "high")] reported;
           HooksEmit "session:end"
             [("response", VStr ("Error getting response: " +:+ e))] ended])
  ∧ count (is_emit "error:provider") (calls run) = 1
  ∧ value run = Some ("Error getting response: " +:+ e)
  ∧ String.prefix "Error getting response:" ("Error getting response: " +:+ e) = true.
Proof.
  intros Hin run. unfold run in *.
  destruct (execute_calls env self prompt providers tools w) as [started Hrun].
  destruct (select_provider self providers) as [provider |].
  - destruct Hrun as (t & v & ended & Hloop & Hcalls & Hvalue).
    rewrite Hcalls in Hin |- *. rewrite Hvalue.
    assert (Hin' : ProviderComplete p ms ts (Raised e) ∈ t).
    { rewrite !elem_of_app in Hin. destruct Hin as [Hin | [Hin | Hin]]; [| done |];
        repeat (apply elem_of_cons in Hin as [Hin | Hin]; [try discriminate |]);
        by apply elem_of_nil in Hin. }
    destruct (loop_run_failure _ _ _ _ _ _ _ _ _ _ Hloop Hin')
      as (before & reported & -> & Hbefore & ->).
    split; [| split; [| split]].
    + exists ([HooksEmit "session:start" [("prompt", VStr prompt)] started;
               ContextAddMessage (user_message prompt)] ++ before), reported, ended.
      by rewrite <- !List.app_assoc.
    + rewrite !count_app, Hbefore. reflexivity.
    + done.
    + reflexivity.
  - destruct Hrun as [Hcalls _]. rewrite Hcalls in Hin.
    repeat (apply elem_of_cons in Hin as [Hin | Hin]; [try discriminate |]);
      by apply elem_of_nil in Hin.
Qed.

(** C6.  If a [parse_tool_calls] of the session yields no tool call, it is
    followed by the appending of the assistant message whose content is the
    content of the response, then by [session:end] with that content, and by
    nothing else; and [execute] returns that content. *)
Theorem no_tool_calls_ends_the_session (self : EventDrivenOrchestrator)
    (prompt : string) (providers : list (string * Provider))
    (tools : list (string * Tool)) (w : W) (p : Provider) (r : Response) :
  ProviderParseToolCalls p r [] ∈ calls (execute env self prompt providers tools w) →
  let run := execute env self prompt providers tools w in
  (∃ before ended,
     calls run
     = before
       ++ [ProviderParseToolCalls p r [];
           ContextAddMessage (assistant_message (resp_content r));
           HooksEmit "session:end" [("response", val_of_opt (resp_content r))] ended])
  ∧ value run = resp_content r.
Proof.
  intros Hin run. unfold run in *.
  destruct (execute_calls env self prompt providers tools w) as [started Hrun].
  destruct (select_provider self providers) as [provider |].
  - destruct Hrun as (t & v & ended & Hloop & Hcalls & Hvalue).
    rewrite Hcalls in Hin |- *. rewrite Hvalue.
    assert (Hin' : ProviderParseToolCalls p r [] ∈ t).
    { rewrite !elem_of_app in Hin. destruct Hin as [Hin | [Hin | Hin]]; [| done |];
        repeat (apply elem_of_cons in Hin as [Hin | Hin]; [try discriminate |]);
        by apply elem_of_nil in Hin. }
    destruct (loop_run_answer _ _ _ _ _ _ _ _ Hloop Hin') as (before & -> & ->).
    split; [| done].
    exists ([HooksEmit "session:start" [("prompt", VStr prompt)] started;
             ContextAddMessage (user_message prompt)] ++ before), ended.
    by rewrite <- !List.app_assoc.
  - destruct Hrun as [Hcalls _]. rewrite Hcalls in Hin.
    repeat (apply elem_of_cons in Hin as [Hin | Hin]; [try discriminate |]);
      by apply elem_of_nil in Hin.
Qed.

(** C7.  With [max_iterations = 1] and a provider whose every completion
    returns a response with tool calls, the session makes one [complete]
    call, processes the tool calls of that response, runs the compaction
    check, emits [session:end] and returns the empty string that
    [final_response] was initialised with. *)
Theorem one_iteration_budget (self : EventDrivenOrchestrator) (prompt : string)
    (providers : list (string * Provider)) (tools : list (string * Tool)) (w : W)
    (provider : Provider) :
  max_iterations self = 1%Z →
  select_provider self providers = Some provider →
  (∀ ms ts w', ∃ response,
     (provider_complete env provider ms ts w').1 = Returned response) →
  (∀ response w', (provider_parse_tool_calls env provider response w').1 ≠ []) →
  let run := execute env self prompt providers tools w in
  count is_complete (calls run) = 1
  ∧ value run = Some ""
  ∧ ∃ started messages response tool_calls w' check ended,
      tool_calls ≠ []
      ∧ compaction_shape check
      ∧ calls run
        = [HooksEmit "session:start" [("prompt", VStr prompt)] started;
           ContextAddMessage (user_message prompt);
           ContextGetMessages messages;
           ProviderComplete provider messages (dict_values tools) (Returned response);
           ProviderParseToolCalls provider response tool_calls;
           ContextAddMessage
             (assistant_tool_calls_message (default "" (resp_content response))
                tool_calls)]
          ++ calls (process_tool_calls env tools tool_calls w')
          ++ check
          ++ [HooksEmit "session:end" [("response", VStr "")] ended].
Proof.
  intros Hmax Hselect Hresponds Hcalls run. unfold run.
  destruct (execute_calls env self prompt providers tools w) as [started Hrun].
  rewrite Hselect, Hmax in Hrun.
  destruct Hrun as (t & v & ended & Hloop & -> & ->).
  change (Z.to_nat 1) with 1 in Hloop.
  inversion Hloop
    as [| ? messages w0 e result Hcomplete
        | ? messages w0 response w1 Hcomplete Hparse
        | ? messages w0 response w1 tool_calls w2 check rest ? Hcomplete Hparse
            Hnonempty Hcheck Hrest]; subst.
  - destruct (Hresponds messages (dict_values tools) w0) as [response Hreturned].
    congruence.
  - by destruct (Hcalls response w1).
  - inversion Hrest; subst.
    split; [| split; [done |]].
    + rewrite !count_app.
      rewrite count_tool_phase, (count_compaction_shape _ check); try done.
      by intros [].
    + exists started, messages, response,
        (provider_parse_tool_calls env provider response w1).1, w2, check, ended.
      split; [done |]. split; [done |].
      rewrite app_nil_r. simpl. by rewrite <- !List.app_assoc.
Qed.

Lemma compaction_run_app ph t1 t2 :
  compaction_run ph (t1 ++ t2)
  = compaction_run ph t1 ≫= (λ ph', compaction_run ph' t2).
Proof.
  revert ph. induction t1 as [| a t1 IH]; intros ph; simpl; [done |].
  destruct (compaction_step ph a); [apply IH | done].
Qed.

Lemma compaction_step_tool_phase a :
  tool_phase_action a → compaction_step Processing a = Some Processing.
Proof.
  destruct a as [event ? ? | m | | | | | |]; simpl; try done.
  intros Hevent%bool_decide_unpack. rewrite decide_False; [done |].
  intros ->. revert Hevent. absent.
Qed.

Lemma compaction_run_tool_phase t :
  Forall tool_phase_action t → compaction_run Processing t = Some Processing.
Proof.
  induction 1 as [| a t Ha _ IH]; [done |].
  cbn [compaction_run]. by rewrite compaction_step_tool_phase.
Qed.

Lemma compaction_run_check check :
  compaction_shape check → compaction_run Processing check = Some Settled.
Proof. by intros []. Qed.

(** The loop starts and ends between iterations. *)
Lemma loop_run_in_order provider tools final_response remaining t v ph :
  loop_run env provider tools final_response remaining t v →
  ph = Requesting ∨ ph = Settled →
  ∃ ph', compaction_run ph t = Some ph' ∧ (ph' = Requesting ∨ ph' = Settled).
Proof.
  intros Hrun. revert ph.
  induction Hrun
    as [| remaining messages w e' result Hcomplete
        | remaining messages w response w1 Hcomplete Hparse
        | remaining messages w response w1 tool_calls w2 check rest v
            Hcomplete Hparse Hcalls Hcheck Hrest IH];
    intros ph Hph.
  - by exists ph.
  - exists Requesting. by destruct Hph as [-> | ->]; auto.
  - exists Requesting. by destruct Hph as [-> | ->]; auto.
  - destruct (IH Settled) as (ph' & Hrest' & Hph'); [by right |].
    exists ph'. split; [| done].
    assert (Hprocessing : compaction_run Processing
      (calls (process_tool_calls env tools tool_calls w2) ++ check ++ rest) = Some ph').
    { rewrite compaction_run_app, compaction_run_tool_phase
        by apply process_tool_calls_phase.
      simpl. by rewrite compaction_run_app, compaction_run_check. }
    by destruct Hph as [-> | ->].
Qed.

(** C8.  The calls of every session keep the compaction discipline:
    [should_compact()] is asked once per iteration whose tool calls were
    processed, after the tool executions of that iteration and before the
    next completion request or the end of the session; a yes is followed at
    once by the emission of [context:pre-compact] and then by [compact()];
    and there is no [context:pre-compact] and no [compact()] anywhere else,
    so none after a no and none before the first tool processing. *)
Theorem compaction_once_per_iteration (self : EventDrivenOrchestrator)
    (prompt : string) (providers : list (string * Provider))
    (tools : list (string * Tool)) (w : W) :
  compaction_in_order (calls (execute env self prompt providers tools w)) = true.
Proof.
  destruct (execute_calls env self prompt providers tools w) as [started Hrun].
  destruct (select_provider self providers) as [provider |].
  - destruct Hrun as (t & v & ended & Hloop & -> & _).
    destruct (loop_run_in_order _ _ _ _ _ _ Requesting Hloop) as (ph & Ht & Hph);
      [by left |].
    unfold compaction_in_order. simpl. rewrite compaction_run_app, Ht. simpl.
    by destruct Hph as [-> | ->].
  - by destruct Hrun as [-> _].
Qed.

End Session.

(** ** Provider selection *)

Lemma dict_get_member {A : Type} (k : string) (d : list (string * A)) (v : A) :
  dict_get k d = Some v → v ∈ dict_values d.
Proof.
  unfold dict_values. induction d as [| [k' v'] d IH]; simpl; [done |].
  case_decide; intros Hget.
  - injection Hget as ->. apply list_elem_of_here.
  - apply list_elem_of_further, IH, Hget.
Qed.

Lemma select_provider_empty (self : EventDrivenOrchestrator)
    (providers : list (string * Provider)) :
  select_provider self providers = None → providers = [].
Proof.
  destruct providers as [| [k first] rest]; simpl; [done |].
  by repeat case_match.
Qed.

(** X1.  [_select_provider] finds no provider exactly when the mapping is
    empty, whatever default is configured. *)
Theorem select_provider_none_iff_empty (self : EventDrivenOrchestrator)
    (providers : list (string * Provider)) :
  select_provider self providers = None ↔ providers = [].
Proof.
  split; [apply select_provider_empty |]. by intros ->.
Qed.

(** X2.  The provider that [_select_provider] returns is one of the values of
    the mapping. *)
Theorem select_provider_member (self : EventDrivenOrchestrator)
    (providers : list (string * Provider)) (provider : Provider) :
  select_provider self providers = Some provider →
  provider ∈ dict_values providers.
Proof.
  destruct providers as [| [k first] rest]; [done |].
  unfold select_provider.
  destruct (default_provider self) as [d |]; [| intros [= ->]; apply list_elem_of_here].
  case_decide; [intros [= ->]; apply list_elem_of_here |].
  destruct (dict_get d ((k, first) :: rest)) as [p |] eqn:Hget.
  - intros [= ->]. by eapply dict_get_member.
  - intros [= ->]. apply list_elem_of_here.
Qed.

(** A configured default that is a key of the mapping is the provider
    selected, wherever it stands in the mapping. *)
Lemma select_provider_default (self : EventDrivenOrchestrator)
    (providers : list (string * Provider)) (d : string) (provider : Provider) :
  default_provider self = Some d →
  d ≠ "" →
  dict_get d providers = Some provider →
  select_provider self providers = Some provider.
Proof.
  intros Hdefault Hd Hget. destruct providers as [| [k first] rest]; [done |].
  unfold select_provider. by rewrite Hdefault, decide_False, Hget.
Qed.

(** When no default is configured, or the default is the empty string, or it
    is not a key of the mapping, the first provider of the mapping is
    selected. *)
Lemma select_provider_fallback (self : EventDrivenOrchestrator)
    (k : string) (first : Provider) (rest : list (string * Provider)) :
  (∀ d, default_provider self = Some d →
        d = "" ∨ dict_get d ((k, first) :: rest) = None) →
  select_provider self ((k, first) :: rest) = Some first.
Proof.
  intros Hdefault. unfold select_provider.
  destruct (default_provider self) as [d |]; [| done].
  case_decide; [done |].
  destruct (Hdefault d eq_refl) as [-> | ->]; done.
Qed.

(** ** The iteration budget *)

Lemma is_complete_tool_phase a : tool_phase_action a → is_complete a = false.
Proof. by destruct a. Qed.

Lemma is_emit_tool_phase event a :
  event ∉ ["tool:selecting"; "tool:selected"; "tool:pre"; "tool:post"; "error:tool"] →
  tool_phase_action a → is_emit event a = false.
Proof.
  intros Hevent. destruct a; simpl; try done.
  intros Hin%bool_decide_unpack. apply bool_decide_eq_false. by intros ->.
Qed.

Section Budget.
Context {W : Type} (env : Collaborators W).

Lemma loop_run_completions provider tools final_response remaining t v :
  loop_run env provider tools final_response remaining t v →
  (count is_complete t ≤ remaining)%nat.
Proof.
  induction 1 as [| remaining messages w e result Hcomplete
                  | remaining messages w response w1 Hcomplete Hparse
                  | remaining messages w response w1 tool_calls w2 check rest v
                      Hcomplete Hparse Hcalls Hcheck Hrest IH].
  - done.
  - unfold count. simpl. lia.
  - unfold count. simpl. lia.
  - rewrite !count_app.
    rewrite count_tool_phase by apply is_complete_tool_phase.
    rewrite (count_compaction_shape _ check) by done.
    unfold count at 1. simpl. lia.
Qed.

Lemma execute_completions (self : EventDrivenOrchestrator) (prompt : string)
    (providers : list (string * Provider)) (tools : list (string * Tool)) (w : W)
    (bound : Z) :
  (max_iterations self ≤ bound)%Z →
  (count is_complete (calls (execute env self prompt providers tools w))
   ≤ Z.to_nat bound)%nat.
Proof.
  intros Hbound.
  destruct (execute_calls env self prompt providers tools w) as [started Hrun].
  destruct (select_provider self providers) as [provider |].
  - destruct Hrun as (t & v & ended & Hloop & -> & _).
    rewrite !count_app. apply loop_run_completions in Hloop.
    unfold count at 1 3. simpl. lia.
  - destruct Hrun as [-> _]. unfold count. simpl. lia.
Qed.

(** X3.  A session never makes more [provider.complete] calls than
    [max_iterations] (none when it is zero or negative). *)
Theorem completion_budget (self : EventDrivenOrchestrator) (prompt : string)
    (providers : list (string * Provider)) (tools : list (string * Tool)) (w : W) :
  (count is_complete (calls (execute env self prompt providers tools w))
   ≤ Z.to_nat (max_iterations self))%nat.
Proof. apply execute_completions. lia. Qed.

(** X4.  With [max_iterations] zero or negative and a provider available, the
    loop body never runs: the session is [session:start], the user message
    and [session:end] with the empty response, and [execute] returns the
    empty string. *)
Theorem no_budget_no_iteration (self : EventDrivenOrchestrator) (prompt : string)
    (providers : list (string * Provider)) (tools : list (string * Tool)) (w : W) :
  (max_iterations self ≤ 0)%Z →
  providers ≠ [] →
  let run := execute env self prompt providers tools w in
  value run = Some ""
  ∧ ∃ started ended,
      calls run
      = [HooksEmit "session:start" [("prompt", VStr prompt)] started;
         ContextAddMessage (user_message prompt);
         HooksEmit "session:end" [("response", VStr "")] ended].
Proof.
  intros Hmax Hproviders run. unfold run.
  destruct (execute_calls env self prompt providers tools w) as [started Hrun].
  destruct (select_provider self providers) as [provider |] eqn:Hselect.
  - destruct Hrun as (t & v & ended & Hloop & -> & ->).
    replace (Z.to_nat (max_iterations self)) with 0 in Hloop by lia.
    inversion Hloop; subst. split; [done |]. by exists started, ended.
  - by apply select_provider_empty in Hselect.
Qed.

Lemma loop_run_exhausted provider tools final_response remaining t v :
  (∀ ms ts w', ∃ response,
     (provider_complete env provider ms ts w').1 = Returned response) →
  (∀ response w', (provider_parse_tool_calls env provider response w').1 ≠ []) →
  loop_run env provider tools final_response remaining t v →
  count is_complete t = remaining ∧ v = final_response.
Proof.
  intros Hresponds Hcalls.
  induction 1 as [| remaining messages w e result Hcomplete
                  | remaining messages w response w1 Hcomplete Hparse
                  | remaining messages w response w1 tool_calls w2 check rest v
                      Hcomplete Hparse Hnonempty Hcheck Hrest IH].
  - done.
  - destruct (Hresponds messages (dict_values tools) w) as [response Hreturned].
    congruence.
  - by destruct (Hcalls response w1).
  - destruct IH as [IH ->]. split; [| done].
    rewrite !count_app, IH.
    rewrite count_tool_phase by apply is_complete_tool_phase.
    rewrite (count_compaction_shape _ check) by done.
    unfold count at 1. simpl. lia.
Qed.

(** X5.  With a provider whose every completion returns a response with tool
    calls, the session uses its whole budget: it makes exactly
    [max_iterations] completion requests (none if that is negative) and
    returns the empty string. *)
Theorem budget_exhausted (self : EventDrivenOrchestrator) (prompt : string)
    (providers : list (string * Provider)) (tools : list (string * Tool)) (w : W)
    (provider : Provider) :
  select_provider self providers = Some provider →
  (∀ ms ts w', ∃ response,
     (provider_complete env provider ms ts w').1 = Returned response) →
  (∀ response w', (provider_parse_tool_calls env provider response w').1 ≠ []) →
  let run := execute env self prompt providers tools w in
  count is_complete (calls run) = Z.to_nat (max_iterations self)
  ∧ value run = Some "".
Proof.
  intros Hselect Hresponds Hcalls run. unfold run.
  destruct (execute_calls env self prompt providers tools w) as [started Hrun].
  rewrite Hselect in Hrun.
  destruct Hrun as (t & v & ended & Hloop & -> & ->).
  destruct (loop_run_exhausted _ _ _ _ _ _ Hresponds Hcalls Hloop) as [Hcount ->].
  split; [| done]. rewrite !count_app, Hcount. unfold count at 1 2. simpl. lia.
Qed.

(** X6.  An orchestrator mounted without a [max_iterations] option is
    registered under the slot "orchestrator" and runs at most 50 iterations
    per session. *)
Theorem default_budget (config : option Config) (prompt : string)
    (providers : list (string * Provider)) (tools : list (string * Tool)) (w : W) :
  (∀ c, config = Some c → cfg_max_iterations c = None) →
  (mount config).1 = "orchestrator"
  ∧ (count is_complete (calls (execute env (mount config).2 prompt providers tools w))
     ≤ 50)%nat.
Proof.
  intros Hconfig. split; [done |].
  apply (execute_completions _ _ _ _ _ 50%Z).
  assert (max_iterations (mount config).2 = 50%Z) as ->; [| done].
  destruct config as [c |]; [| done].
  specialize (Hconfig c eq_refl). destruct c as [m d]. simpl in *. subst m.
  by destruct d.
Qed.

End Budget.

(** ** The shape of a session *)

Section Shape.
Context {W : Type} (env : Collaborators W).

Lemma loop_run_no_session_event event provider tools final_response remaining t v :
  event = "session:start" ∨ event = "session:end" →
  loop_run env provider tools final_response remaining t v →
  count (is_emit event) t = 0.
Proof.
  intros Hevent.
  induction 1 as [| remaining messages w e result Hcomplete
                  | remaining messages w response w1 Hcomplete Hparse
                  | remaining messages w response w1 tool_calls w2 check rest v
                      Hcomplete Hparse Hcalls Hcheck Hrest IH].
  - done.
  - by destruct Hevent as [-> | ->].
  - by destruct Hevent as [-> | ->].
  - rewrite !count_app, IH.
    rewrite count_tool_phase
      by (intros a; apply is_emit_tool_phase; destruct Hevent as [-> | ->]; absent).
    rewrite (count_compaction_shape _ check); try done.
    intros result. by destruct Hevent as [-> | ->].
Qed.

(** X7.  Every session opens with one [session:start] event carrying the
    prompt, followed by the appending of the user message.  When a provider
    is selected it closes with one [session:end] event, its last call, whose
    response is the value that [execute] returns; when none is selected no
    [session:end] is emitted. *)
Theorem session_bracket (self : EventDrivenOrchestrator) (prompt : string)
    (providers : list (string * Provider)) (tools : list (string * Tool)) (w : W) :
  let run := execute env self prompt providers tools w in
  count (is_emit "session:start") (calls run) = 1
  ∧ (∃ started rest,
       calls run
       = HooksEmit "session:start" [("prompt", VStr prompt)] started
         :: ContextAddMessage (user_message prompt) :: rest)
  ∧ match select_provider self providers with
    | None => count (is_emit "session:end") (calls run) = 0
    | Some _ =>
        count (is_emit "session:end") (calls run) = 1
        ∧ ∃ before ended,
            calls run
            = before
              ++ [HooksEmit "session:end" [("response", val_of_opt (value run))] ended]
    end.
Proof.
  intros run. unfold run.
  destruct (execute_calls env self prompt providers tools w) as [started Hrun].
  destruct (select_provider self providers) as [provider |].
  - destruct Hrun as (t & v & ended & Hloop & -> & ->).
    rewrite !count_app.
    rewrite (loop_run_no_session_event "session:start" _ _ _ _ _ _ (or_introl eq_refl) Hloop).
    rewrite (loop_run_no_session_event "session:end" _ _ _ _ _ _ (or_intror eq_refl) Hloop).
    split; [done |]. split; [by eexists _, _ |]. split; [done |].
    exists ([HooksEmit "session:start" [("prompt", VStr prompt)] started;
             ContextAddMessage (user_message prompt)] ++ t), ended.
    by rewrite <- !List.app_assoc.
  - destruct Hrun as [-> _]. split; [done |]. split; [by eexists _, _ | done].
Qed.

Lemma loop_run_outcomes provider tools final_response remaining t v :
  loop_run env provider tools final_response remaining t v →
  (∃ ms ts e,
     ProviderComplete provider ms ts (Raised e) ∈ t
     ∧ v = Some ("Error getting response: " +:+ e))
  ∨ (∃ r, ProviderParseToolCalls provider r [] ∈ t ∧ v = resp_content r)
  ∨ (count is_complete t = remaining ∧ v = final_response).
Proof.
  induction 1 as [| remaining messages w e result Hcomplete
                  | remaining messages w response w1 Hcomplete Hparse
                  | remaining messages w response w1 tool_calls w2 check rest v
                      Hcomplete Hparse Hcalls Hcheck Hrest IH].
  - by right; right.
  - left. exists messages, (dict_values tools), e. split; [| done].
    apply list_elem_of_further, list_elem_of_here.
  - right; left. exists response. split; [| done].
    do 2 apply list_elem_of_further. apply list_elem_of_here.
  - destruct IH as [(ms & ts & e & Hin & ->) | [(r & Hin & ->) | [Hcount ->]]].
    + left. exists ms, ts, e. split; [| done]. rewrite !elem_of_app. auto.
    + right; left. exists r. split; [| done]. rewrite !elem_of_app. auto.
    + right; right. split; [| done].
      rewrite !count_app, Hcount.
      rewrite count_tool_phase by apply is_complete_tool_phase.
      rewrite (count_compaction_shape _ check) by done.
      unfold count at 1. simpl. lia.
Qed.

(** X8.  [execute] ends in one of four ways, and the value it returns tells
    which: no provider ("Error: No providers available"); a [complete] call
    that raised ("Error getting response: " and the message of the
    exception); a response without tool calls (its content); or the budget
    used up, after [max_iterations] completion requests (the empty
    string). *)
Theorem session_outcomes (self : EventDrivenOrchestrator) (prompt : string)
    (providers : list (string * Provider)) (tools : list (string * Tool)) (w : W) :
  let run := execute env self prompt providers tools w in
  (providers = [] ∧ value run = Some "Error: No providers available")
  ∨ (∃ p ms ts e,
       ProviderComplete p ms ts (Raised e) ∈ calls run
       ∧ value run = Some ("Error getting response: " +:+ e))
  ∨ (∃ p r, ProviderParseToolCalls p r [] ∈ calls run ∧ value run = resp_content r)
  ∨ (count is_complete (calls run) = Z.to_nat (max_iterations self)
     ∧ value run = Some "").
Proof.
  intros run. unfold run.
  destruct (execute_calls env self prompt providers tools w) as [started Hrun].
  destruct (select_provider self providers) as [provider |] eqn:Hselect.
  - destruct Hrun as (t & v & ended & Hloop & -> & ->). right.
    destruct (loop_run_outcomes _ _ _ _ _ _ Hloop)
      as [(ms & ts & e & Hin & ->) | [(r & Hin & ->) | [Hcount ->]]].
    + left. exists provider, ms, ts, e. split; [| done]. rewrite !elem_of_app. auto.
    + right; left. exists provider, r. split; [| done]. rewrite !elem_of_app. auto.
    + right; right. split; [| done].
      rewrite !count_app, Hcount. unfold count at 1 2. simpl. lia.
  - left. destruct Hrun as [_ ->].
    by apply select_provider_empty in Hselect.
Qed.

Lemma loop_run_uses_provider provider tools final_response remaining t v :
  loop_run env provider tools final_response remaining t v →
  Forall (uses_provider provider tools) t.
Proof.
  induction 1 as [| remaining messages w e result Hcomplete
                  | remaining messages w response w1 Hcomplete Hparse
                  | remaining messages w response w1 tool_calls w2 check rest v
                      Hcomplete Hparse Hcalls Hcheck Hrest IH].
  - constructor.
  - by repeat constructor.
  - by repeat constructor.
  - repeat (apply Forall_app; split); [by repeat constructor | | | done].
    + eapply Forall_impl; [apply process_tool_calls_phase |].
      by intros [].
    + destruct Hcheck; by repeat constructor.
Qed.

Lemma execute_uses_provider (self : EventDrivenOrchestrator) (prompt : string)
    (providers : list (string * Provider)) (tools : list (string * Tool)) (w : W)
    (provider : Provider) :
  select_provider self providers = Some provider →
  Forall (uses_provider provider tools)
    (calls (execute env self prompt providers tools w)).
Proof.
  intros Hselect.
  destruct (execute_calls env self prompt providers tools w) as [started Hrun].
  rewrite Hselect in Hrun. destruct Hrun as (t & v & ended & Hloop & -> & _).
  repeat (apply Forall_app; split); [by repeat constructor | | by repeat constructor].
  by eapply loop_run_uses_provider.
Qed.

(** X9.  One provider serves the whole session: every [complete] and every
    [parse_tool_calls] of a session is a call on the provider that
    [_select_provider] returned, and every completion request carries the
    tool objects of the tools mapping, in the order of the mapping. *)
Theorem one_provider_per_session (self : EventDrivenOrchestrator) (prompt : string)
    (providers : list (string * Provider)) (tools : list (string * Tool)) (w : W)
    (provider : Provider) :
  select_provider self providers = Some provider →
  Forall (uses_provider provider tools)
    (calls (execute env self prompt providers tools w)).
Proof. apply execute_uses_provider. Qed.

(** X10.  A configured default provider that is a key of the providers
    mapping serves the session, wherever it stands in the mapping: every
    [complete] and every [parse_tool_calls] is a call on it. *)
Theorem default_provider_serves_the_session (self : EventDrivenOrchestrator)
    (prompt : string) (providers : list (string * Provider))
    (tools : list (string * Tool)) (w : W) (d : string) (provider : Provider) :
  default_provider self = Some d →
  d ≠ "" →
  dict_get d providers = Some provider →
  Forall (uses_provider provider tools)
    (calls (execute env self prompt providers tools w)).
Proof.
  intros Hdefault Hd Hget. apply execute_uses_provider.
  by eapply select_provider_default.
Qed.

(** X11.  A default that is not configured, is the empty string, or is not a
    key of the providers mapping is not an error: the first provider of the
    mapping serves the session. *)
Theorem missing_default_falls_back (self : EventDrivenOrchestrator)
    (prompt : string) (k : string) (first : Provider)
    (rest : list (string * Provider)) (tools : list (string * Tool)) (w : W) :
  (∀ d, default_provider self = Some d →
        d = "" ∨ dict_get d ((k, first) :: rest) = None) →
  Forall (uses_provider first tools)
    (calls (execute env self prompt ((k, first) :: rest) tools w)).
Proof.
  intros Hdefault. apply execute_uses_provider.
  by apply select_provider_fallback.
Qed.

End Shape.

(** ** The paths of one tool call *)

Lemma count_is_emit event t :
  count (is_emit event) t
  = length (List.filter (λ e, bool_decide (e = event)) (emitted t)).
Proof.
  unfold count. induction t as [| a t IH]; [done |].
  destruct a; simpl; try exact IH. case_bool_decide; simpl; by rewrite IH.
Qed.

Section Paths.
Context {W : Type} (env : Collaborators W).

Lemma run_tool_raised tool_name tool tool_call w e :
  (tool_execute env tool (tc_arguments tool_call) w).1 = Raised e →
  ∃ reported posted,
    calls (run_tool env tool_name tool tool_call w)
    = [ToolExecute tool (tc_arguments tool_call) (Raised e);
       HooksEmit "error:tool"
         [("error_type", VStr "execution_failed");
          ("error_message", VStr e);
          ("tool", VStr tool_name);
          ("severity", VStr "high")] reported;
       HooksEmit "tool:post"
         [("tool", VStr tool_name);
          ("result", VResult (mkToolResult false PyNone (PyDict [("message", PyStr e)])))]
         posted;
       ContextAddMessage
         (tool_message tool_name (tc_id tool_call)
            ("Error: " +:+ py_str env (PyDict [("message", PyStr e)])))].
Proof.
  intros Hraised. unfold run_tool. step. rewrite Hraised. step.
  by eexists _, _.
Qed.

Lemma run_tool_returned tool_name tool tool_call w result :
  (tool_execute env tool (tc_arguments tool_call) w).1 = Returned result →
  ∃ posted,
    calls (run_tool env tool_name tool tool_call w)
    = [ToolExecute tool (tc_arguments tool_call) (Returned result);
       HooksEmit "tool:post" [("tool", VStr tool_name); ("result", VResult result)]
         posted;
       ContextAddMessage
         (tool_message tool_name (tc_id tool_call) (result_content env result))].
Proof.
  intros Hreturned. unfold run_tool. step. rewrite Hreturned. step.
  by eexists.
Qed.

(** The calls of a tool call that neither hook denied, up to the lookup. *)
Lemma process_tool_call_passed tools tool_call w :
  hr_action (selecting_verdict env tools tool_call w) ≠ "deny" →
  hr_action (pre_verdict env tools tool_call w) ≠ "deny" →
  let verdict := selecting_verdict env tools tool_call w in
  let name := resolved_tool_name verdict tool_call in
  ∃ selected,
    calls (process_tool_call env tools tool_call w)
    = [HooksEmit "tool:selecting" (selecting_payload tools tool_call) verdict;
       HooksEmit "tool:selected" (selected_payload verdict tool_call) selected;
       HooksEmit "tool:pre"
         (pre_hook_data name (tc_arguments tool_call) (looked_up env tools tool_call w))
         (pre_verdict env tools tool_call w)]
      ++ match looked_up env tools tool_call w with
         | None =>
             calls (tool_not_found env name tool_call (pre_emit env tools tool_call w).2)
         | Some tool =>
             calls (run_tool env name tool tool_call (pre_emit env tools tool_call w).2)
         end.
Proof.
  intros Hselecting Hpre verdict name.
  rewrite process_tool_call_calls.
  destruct (after_selecting_calls env tools tool_call w) as [selected ->].
  fold verdict name. rewrite !decide_False by done. by exists selected.
Qed.

(** X12.  When [tool.execute] raises, the failure is reported and recorded,
    not propagated: after the execution come the [error:tool] event (error
    type "execution_failed", the message of the exception, the tool name,
    severity "high"), the [tool:post] event with a failed result whose error
    is the dict of that message, and the tool-role reply "Error: " followed by
    the string form of that dict. *)
Theorem execution_failure_is_recorded (tools : list (string * Tool))
    (tool_call : ToolCall) (tool : Tool) (e : string) (w : W) :
  hr_action (selecting_verdict env tools tool_call w) ≠ "deny" →
  hr_action (pre_verdict env tools tool_call w) ≠ "deny" →
  looked_up env tools tool_call w = Some tool →
  execute_outcome env tools tool_call tool w = Raised e →
  let verdict := selecting_verdict env tools tool_call w in
  let name := resolved_tool_name verdict tool_call in
  let failed := mkToolResult false PyNone (PyDict [("message", PyStr e)]) in
  ∃ selected reported posted,
    calls (process_tool_call env tools tool_call w)
    = [HooksEmit "tool:selecting" (selecting_payload tools tool_call) verdict;
       HooksEmit "tool:selected" (selected_payload verdict tool_call) selected;
       HooksEmit "tool:pre"
         (pre_hook_data name (tc_arguments tool_call) (Some tool))
         (pre_verdict env tools tool_call w);
       ToolExecute tool (tc_arguments tool_call) (Raised e);
       HooksEmit "error:tool"
         [("error_type", VStr "execution_failed");
          ("error_message", VStr e);
          ("tool", VStr name);
          ("severity", VStr "high")] reported;
       HooksEmit "tool:post" [("tool", VStr name); ("result", VResult failed)] posted;
       ContextAddMessage
         (tool_message name (tc_id tool_call)
            ("Error: " +:+ py_str env (PyDict [("message", PyStr e)])))].
Proof.
  intros Hselecting Hpre Hfound Hraised verdict name failed.
  subst verdict name failed.
  destruct (process_tool_call_passed tools tool_call w Hselecting Hpre)
    as [selected ->].
  rewrite Hfound.
  destruct (run_tool_raised (resolved_tool_name (selecting_verdict env tools tool_call w) tool_call) tool tool_call _ e Hraised)
    as (reported & posted & ->).
  by exists selected, reported, posted.
Qed.

(** X13.  When [tool.execute] returns a result, no [error:tool] event is
    emitted, even if the result says [success = false]: after the execution
    come the [tool:post] event with the result and the tool-role reply, whose
    content is the string form of the output on success and "Error: "
    followed by the string form of the error otherwise. *)
Theorem returned_result_is_recorded (tools : list (string * Tool))
    (tool_call : ToolCall) (tool : Tool) (result : ToolResult) (w : W) :
  hr_action (selecting_verdict env tools tool_call w) ≠ "deny" →
  hr_action (pre_verdict env tools tool_call w) ≠ "deny" →
  looked_up env tools tool_call w = Some tool →
  execute_outcome env tools tool_call tool w = Returned result →
  let verdict := selecting_verdict env tools tool_call w in
  let name := resolved_tool_name verdict tool_call in
  let this_call := calls (process_tool_call env tools tool_call w) in
  (∃ selected posted,
     this_call
     = [HooksEmit "tool:selecting" (selecting_payload tools tool_call) verdict;
        HooksEmit "tool:selected" (selected_payload verdict tool_call) selected;
        HooksEmit "tool:pre"
          (pre_hook_data name (tc_arguments tool_call) (Some tool))
          (pre_verdict env tools tool_call w);
        ToolExecute tool (tc_arguments tool_call) (Returned result);
        HooksEmit "tool:post" [("tool", VStr name); ("result", VResult result)] posted;
        ContextAddMessage
          (tool_message name (tc_id tool_call)
             (if tr_success result then py_str env (tr_output result)
              else "Error: " +:+ py_str env (tr_error result)))])
  ∧ ("error:tool" ∉ emitted this_call).
Proof.
  intros Hselecting Hpre Hfound Hreturned verdict name this_call.
  subst verdict name this_call.
  destruct (process_tool_call_passed tools tool_call w Hselecting Hpre)
    as [selected ->].
  rewrite Hfound.
  destruct (run_tool_returned (resolved_tool_name (selecting_verdict env tools tool_call w) tool_call) tool tool_call _ result Hreturned)
    as (posted & ->).
  split; [by exists selected, posted | simpl; absent].
Qed.

(** X14.  When the resolved tool is not in the tools mapping and neither hook
    denies, nothing is executed and no [tool:post] is emitted: the reply
    "Error: Tool <name> not found" is appended first, then [error:tool] is
    emitted with error type "tool_not_found" and severity "medium"; the name
    is the resolved one, so after a redirection it is the scheduler's. *)
Theorem missing_tool_is_reported (tools : list (string * Tool))
    (tool_call : ToolCall) (w : W) :
  hr_action (selecting_verdict env tools tool_call w) ≠ "deny" →
  hr_action (pre_verdict env tools tool_call w) ≠ "deny" →
  looked_up env tools tool_call w = None →
  let verdict := selecting_verdict env tools tool_call w in
  let name := resolved_tool_name verdict tool_call in
  ∃ selected reported,
    calls (process_tool_call env tools tool_call w)
    = [HooksEmit "tool:selecting" (selecting_payload tools tool_call) verdict;
       HooksEmit "tool:selected" (selected_payload verdict tool_call) selected;
       HooksEmit "tool:pre"
         [("tool", VStr name); ("arguments", VAny (tc_arguments tool_call))]
         (pre_verdict env tools tool_call w);
       ContextAddMessage
         (tool_message name (tc_id tool_call)
            ("Error: Tool " +:+ name +:+ " not found"));
       HooksEmit "error:tool"
         [("error_type", VStr "tool_not_found");
          ("error_message", VStr ("Tool " +:+ name +:+ " not found"));
          ("severity", VStr "medium")] reported].
Proof.
  intros Hselecting Hpre Hmissing verdict name. subst verdict name.
  destruct (process_tool_call_passed tools tool_call w Hselecting Hpre)
    as [selected ->].
  rewrite Hmissing.
  destruct (tool_not_found_calls env
    (resolved_tool_name (selecting_verdict env tools tool_call w) tool_call)
    tool_call (pre_emit env tools tool_call w).2) as [reported ->].
  by exists selected, reported.
Qed.

(** X15.  A verdict of [tool:selecting] whose action is neither "deny" nor
    "modify" (allow, or any other string) leaves the selection to the
    model: the requested tool is the one looked up, [tool:selected] says
    source "llm" with no original tool, and the [data] of the verdict is not
    read. *)
Theorem other_actions_allow (tools : list (string * Tool))
    (tool_call : ToolCall) (w : W) :
  hr_action (selecting_verdict env tools tool_call w) ≠ "deny" →
  hr_action (selecting_verdict env tools tool_call w) ≠ "modify" →
  let this_call := calls (process_tool_call env tools tool_call w) in
  payloads_of "tool:selected" this_call
  = [[("tool", VStr (tc_tool tool_call)); ("source", VStr "llm");
      ("original_tool", VNone)]]
  ∧ payloads_of "tool:pre" this_call
    = [pre_hook_data (tc_tool tool_call) (tc_arguments tool_call)
         (dict_get (tc_tool tool_call) tools)]
  ∧ executed this_call
    = if decide (hr_action (pre_verdict env tools tool_call w) = "deny") then []
      else option_list (dict_get (tc_tool tool_call) tools).
Proof.
  intros Hselecting Hmodify this_call.
  assert (Hname : resolved_tool_name (selecting_verdict env tools tool_call w) tool_call
                  = tc_tool tool_call).
  { unfold resolved_tool_name. by rewrite decide_False. }
  assert (Hlookup : looked_up env tools tool_call w = dict_get (tc_tool tool_call) tools).
  { unfold looked_up. by rewrite Hname. }
  split; [| split].
  - unfold this_call. rewrite process_tool_call_calls.
    destruct (after_selecting_calls env tools tool_call w) as [selected ->].
    rewrite (decide_False (P := _ = "deny")) by done.
    unfold selected_payload. rewrite Hname. simpl.
    rewrite !(decide_False (P := _ = "modify")) by done. f_equal.
    apply payloads_of_absent. case_decide; [absent |].
    case_match.
    + intros [? | ?]%run_tool_emitted; discriminate.
    + destruct (tool_not_found_calls env (tc_tool tool_call) tool_call
        (pre_emit env tools tool_call w).2) as [reported ->].
      simpl. absent.
  - pose proof (process_tool_call_pre_payloads env tools tool_call w) as Hpre.
    unfold this_call. rewrite Hpre.
    by rewrite decide_False, Hname, Hlookup.
  - unfold this_call. rewrite process_tool_call_executed.
    by rewrite decide_False, Hlookup.
Qed.

End Paths.

(** ** The tool phase as a whole *)

Section Phase.
Context {W : Type} (env : Collaborators W).

Lemma process_tool_call_selecting tools tool_call w :
  payloads_of "tool:selecting" (calls (process_tool_call env tools tool_call w))
  = [selecting_payload tools tool_call].
Proof.
  rewrite process_tool_call_calls. simpl. f_equal.
  apply payloads_of_absent. case_decide; [absent |].
  destruct (after_selecting_calls env tools tool_call w) as [selected ->].
  simpl. intros Hin.
  repeat (apply elem_of_cons in Hin as [? | Hin]; [discriminate |]).
  revert Hin. case_decide; [absent |].
  case_match.
  - intros [? | ?]%run_tool_emitted; discriminate.
  - destruct (tool_not_found_calls env
      (resolved_tool_name (selecting_verdict env tools tool_call w) tool_call)
      tool_call (pre_emit env tools tool_call w).2) as [reported ->].
    simpl. absent.
Qed.

(** X16.  Every tool call of a response is put to the scheduler, once and in
    the order of the response, whatever happened to the calls before it: the
    [tool:selecting] events of the tool phase carry, call by call, the
    requested tool, its arguments and the names of the available tools. *)
Theorem every_call_is_put_to_the_scheduler (tools : list (string * Tool))
    (tool_calls : list ToolCall) (w : W) :
  payloads_of "tool:selecting" (calls (process_tool_calls env tools tool_calls w))
  = map (λ tool_call,
           [("tool", VStr (tc_tool tool_call));
            ("arguments", VAny (tc_arguments tool_call));
            ("available_tools", VNames (dict_keys tools))]) tool_calls.
Proof.
  revert w. induction tool_calls as [| tool_call rest IH]; intros w; simpl; [done |].
  step. by rewrite payloads_of_app, process_tool_call_selecting, IH.
Qed.

(** X17.  The tool calls are processed one after the other: processing two
    lists in a row makes the calls of the first, then those of the second in
    the world that the first left. *)
Theorem process_tool_calls_app (tools : list (string * Tool))
    (first second : list ToolCall) (w : W) :
  calls (process_tool_calls env tools (first ++ second) w)
  = calls (process_tool_calls env tools first w)
    ++ calls (process_tool_calls env tools second
                (world (process_tool_calls env tools first w)))
  ∧ world (process_tool_calls env tools (first ++ second) w)
    = world (process_tool_calls env tools second
               (world (process_tool_calls env tools first w))).
Proof.
  revert w. induction first as [| tool_call first IH]; intros w; simpl; [done |].
  step. destruct (IH (world (process_tool_call env tools tool_call w))) as [-> ->].
  by rewrite <- List.app_assoc.
Qed.

Lemma process_tool_call_post tools tool_call w :
  count (is_emit "tool:post") (calls (process_tool_call env tools tool_call w))
  = length (executed (calls (process_tool_call env tools tool_call w))).
Proof.
  rewrite count_is_emit, process_tool_call_emitted, process_tool_call_executed.
  case_decide; [done |]. case_decide; [done |].
  destruct (looked_up env tools tool_call w) as [tool |]; [| done].
  destruct (run_tool_calls env
    (resolved_tool_name (selecting_verdict env tools tool_call w) tool_call)
    tool tool_call (pre_emit env tools tool_call w).2)
    as (outcome & after & -> & _ & Hafter).
  simpl. rewrite Hafter. by destruct outcome.
Qed.

Lemma process_tool_calls_post tools tool_calls w :
  count (is_emit "tool:post") (calls (process_tool_calls env tools tool_calls w))
  = length (executed (calls (process_tool_calls env tools tool_calls w))).
Proof.
  revert w. induction tool_calls as [| tool_call rest IH]; intros w; simpl; [done |].
  step. by rewrite count_app, executed_app, length_app, process_tool_call_post, IH.
Qed.

Lemma process_tool_call_executed_members tools tool_call w :
  (length (executed (calls (process_tool_call env tools tool_call w))) ≤ 1)%nat
  ∧ Forall (λ tool, tool ∈ dict_values tools)
      (executed (calls (process_tool_call env tools tool_call w))).
Proof.
  rewrite process_tool_call_executed.
  case_decide; [by split; [simpl; lia |] |].
  case_decide; [by split; [simpl; lia |] |].
  unfold looked_up.
  destruct (dict_get _ tools) as [tool |] eqn:Hget; simpl; [| by split; [lia |]].
  split; [lia |]. constructor; [| done]. by eapply dict_get_member.
Qed.

Lemma process_tool_calls_executed tools tool_calls w :
  (length (executed (calls (process_tool_calls env tools tool_calls w)))
     ≤ length tool_calls)%nat
  ∧ Forall (λ tool, tool ∈ dict_values tools)
      (executed (calls (process_tool_calls env tools tool_calls w))).
Proof.
  revert w. induction tool_calls as [| tool_call rest IH]; intros w; simpl;
    [by split |].
  step. rewrite executed_app, length_app.
  destruct (process_tool_call_executed_members tools tool_call w) as [Hone Hmember].
  destruct (IH (world (process_tool_call env tools tool_call w))) as [Hrest Hmembers].
  split; [lia | by apply Forall_app].
Qed.

(** X18.  A tool call leads to at most one execution: the tool phase of an
    iteration never executes more tools than the response had tool calls. *)
Theorem at_most_one_execution_per_call (tools : list (string * Tool))
    (tool_calls : list ToolCall) (w : W) :
  (length (executed (calls (process_tool_calls env tools tool_calls w)))
   ≤ length tool_calls)%nat.
Proof. apply process_tool_calls_executed. Qed.

Lemma loop_run_executions provider tools final_response remaining t v :
  loop_run env provider tools final_response remaining t v →
  count (is_emit "tool:post") t = length (executed t)
  ∧ Forall (λ tool, tool ∈ dict_values tools) (executed t).
Proof.
  induction 1 as [| remaining messages w e result Hcomplete
                  | remaining messages w response w1 Hcomplete Hparse
                  | remaining messages w response w1 tool_calls w2 check rest v
                      Hcomplete Hparse Hcalls Hcheck Hrest IH].
  - by split.
  - by split.
  - by split.
  - destruct IH as [IHpost IHmember].
    rewrite !count_app, !executed_app, !length_app, IHpost, process_tool_calls_post.
    assert (executed check = []) as -> by by destruct Hcheck.
    rewrite (count_compaction_shape _ check) by done.
    split; [done |]. simpl.
    apply Forall_app. split; [apply process_tool_calls_executed | done].
Qed.

(** X19.  In every session there are as many [tool:post] events as tool
    executions: [tool:post] is emitted after every execution, raising or not,
    and for no tool call that was denied or whose tool was not found. *)
Theorem post_event_per_execution (self : EventDrivenOrchestrator) (prompt : string)
    (providers : list (string * Provider)) (tools : list (string * Tool)) (w : W) :
  count (is_emit "tool:post") (calls (execute env self prompt providers tools w))
  = length (executed (calls (execute env self prompt providers tools w))).
Proof.
  destruct (execute_calls env self prompt providers tools w) as [started Hrun].
  destruct (select_provider self providers) as [provider |].
  - destruct Hrun as (t & v & ended & Hloop & -> & _).
    destruct (loop_run_executions _ _ _ _ _ _ Hloop) as [Hpost _].
    rewrite !count_app, !executed_app, !length_app, Hpost. simpl. unfold count.
    simpl. lia.
  - by destruct Hrun as [-> _].
Qed.

(** X20.  A session only executes tools of the tools mapping: every tool
    object whose [execute] is invoked is a value of [tools], also after a
    redirection by the scheduler; with an empty mapping nothing is
    executed. *)
Theorem only_mapped_tools_are_executed (self : EventDrivenOrchestrator)
    (prompt : string) (providers : list (string * Provider))
    (tools : list (string * Tool)) (w : W) :
  Forall (λ tool, tool ∈ dict_values tools)
    (executed (calls (execute env self prompt providers tools w)))
  ∧ executed (calls (execute env self prompt providers [] w)) = [].
Proof.
  assert (Hmembers : ∀ tools', Forall (λ tool, tool ∈ dict_values tools')
    (executed (calls (execute env self prompt providers tools' w)))).
  { intros tools'.
    destruct (execute_calls env self prompt providers tools' w) as [started Hrun].
    destruct (select_provider self providers) as [provider |].
    - destruct Hrun as (t & v & ended & Hloop & -> & _).
      destruct (loop_run_executions _ _ _ _ _ _ Hloop) as [_ Hmember].
      rewrite !executed_app. simpl. by rewrite app_nil_r.
    - by destruct Hrun as [-> _]. }
  split; [apply Hmembers |]. specialize (Hmembers []).
  destruct (executed _) as [| tool rest]; [done |].
  apply Forall_cons in Hmembers as [Hin _]. by apply elem_of_nil in Hin.
Qed.

End Phase.

(** ** Examples on the sample collaborators *)

(** A call is among the calls of a run that can be computed. *)
Ltac among :=
  vm_compute; repeat first [apply list_elem_of_here | apply list_elem_of_further].

(** A scheduler that vetoes the selection of [echo]: nothing is executed. *)
Lemma selecting_deny_skips_the_tool_witness :
  hr_action (selecting_verdict (Sample.collaborators Sample.vetoed) Sample.tools
               Sample.call_echo Sample.fresh) = "deny"
  ∧ executed (calls (process_tool_call (Sample.collaborators Sample.vetoed)
                       Sample.tools Sample.call_echo Sample.fresh)) = [].
Proof.
  split; [reflexivity |].
  exact (proj1 (proj2 (selecting_deny_skips_the_tool
    (Sample.collaborators Sample.vetoed) Sample.tools Sample.call_echo
    [Sample.call_missing] Sample.fresh eq_refl))).
Defined.

(** A veto at [tool:pre] for a tool that is not in the mapping. *)
Lemma pre_deny_wins_over_not_found_witness :
  hr_action (selecting_verdict (Sample.collaborators Sample.vetoed_late) Sample.tools
               Sample.call_missing Sample.fresh) ≠ "deny"
  ∧ looked_up (Sample.collaborators Sample.vetoed_late) Sample.tools
      Sample.call_missing Sample.fresh = None
  ∧ hr_action (pre_verdict (Sample.collaborators Sample.vetoed_late) Sample.tools
                 Sample.call_missing Sample.fresh) = "deny"
  ∧ appended (calls (process_tool_call (Sample.collaborators Sample.vetoed_late)
                       Sample.tools Sample.call_missing Sample.fresh))
    = [tool_message "missing" "call-2" "Error: Tool execution denied"].
Proof.
  split; [discriminate |]. split; [reflexivity |]. split; [reflexivity |].
  exact (proj1 (pre_deny_wins_over_not_found
    (Sample.collaborators Sample.vetoed_late) Sample.tools Sample.call_missing
    Sample.fresh ltac:(discriminate) eq_refl eq_refl)).
Defined.

(** A scheduler that redirects the call of [echo] to [search]: [search] is the
    tool executed. *)
Lemma modify_redirects_the_call_witness :
  hr_action (selecting_verdict (Sample.collaborators Sample.redirected) Sample.tools
               Sample.call_echo Sample.fresh) = "modify"
  ∧ executed (calls (process_tool_call (Sample.collaborators Sample.redirected)
                       Sample.tools Sample.call_echo Sample.fresh))
    = [Sample.search].
Proof.
  split; [reflexivity |].
  exact (proj2 (proj2 (proj2 (proj2 (proj2 (modify_redirects_the_call
    (Sample.collaborators Sample.redirected) Sample.tools Sample.call_echo
    Sample.fresh eq_refl)))))).
Defined.

(** The same redirection with a veto at [tool:pre]: the scheduler's verdict is
    "modify" with [data = {"tool": "search"}], [search] is in the tools
    mapping, and it is not executed. *)
Lemma redirected_tool_not_executed :
  hr_action (selecting_verdict (Sample.collaborators Sample.redirected_vetoed)
               Sample.tools Sample.call_echo Sample.fresh) = "modify"
  ∧ hr_data (selecting_verdict (Sample.collaborators Sample.redirected_vetoed)
               Sample.tools Sample.call_echo Sample.fresh)
    = Some {[ "tool" := "search" ]}
  ∧ dict_get "search" Sample.tools = Some Sample.search
  ∧ executed (calls (process_tool_call (Sample.collaborators Sample.redirected_vetoed)
                       Sample.tools Sample.call_echo Sample.fresh)) = [].
Proof. repeat split; vm_compute; reflexivity. Qed.

(** A call of a tool that is not in the mapping, with hooks that allow
    everything: [tool:pre] is emitted all the same. *)
Lemma pre_event_for_missing_tool :
  looked_up (Sample.collaborators Sample.helpful) Sample.tools Sample.call_missing
    Sample.fresh = None
  ∧ "tool:pre" ∈ emitted (calls (process_tool_call (Sample.collaborators Sample.helpful)
                                   Sample.tools Sample.call_missing Sample.fresh)).
Proof. split; [reflexivity | among]. Qed.

(** A provider that raises at its second completion. *)
Lemma provider_failure_ends_the_session_witness :
  ProviderComplete (ProviderObj 0) Sample.failing_messages [Sample.echo; Sample.search]
    (Raised "timeout")
    ∈ calls (execute (Sample.collaborators Sample.failing) (Sample.orchestrator 5)
               "hello" Sample.providers Sample.tools Sample.fresh)
  ∧ value (execute (Sample.collaborators Sample.failing) (Sample.orchestrator 5)
             "hello" Sample.providers Sample.tools Sample.fresh)
    = Some "Error getting response: timeout"
  ∧ count (is_emit "error:provider")
      (calls (execute (Sample.collaborators Sample.failing) (Sample.orchestrator 5)
                "hello" Sample.providers Sample.tools Sample.fresh)) = 1.
Proof.
  assert (Hin : ProviderComplete (ProviderObj 0) Sample.failing_messages
                  [Sample.echo; Sample.search] (Raised "timeout")
                ∈ calls (execute (Sample.collaborators Sample.failing)
                           (Sample.orchestrator 5) "hello" Sample.providers
                           Sample.tools Sample.fresh)) by among.
  split; [exact Hin |].
  pose proof (provider_failure_ends_the_session (Sample.collaborators Sample.failing)
    (Sample.orchestrator 5) "hello" Sample.providers Sample.tools Sample.fresh
    _ _ _ _ Hin) as H.
  split; [exact (proj1 (proj2 (proj2 H))) | exact (proj1 (proj2 H))].
Defined.

(** A provider that asks for two tool calls and then answers. *)
Lemma no_tool_calls_ends_the_session_witness :
  ProviderParseToolCalls (ProviderObj 0) (mkResponse (Some "done")) []
    ∈ calls (execute (Sample.collaborators Sample.helpful) (Sample.orchestrator 5)
               "hello" Sample.providers Sample.tools Sample.fresh)
  ∧ value (execute (Sample.collaborators Sample.helpful) (Sample.orchestrator 5)
             "hello" Sample.providers Sample.tools Sample.fresh)
    = Some "done".
Proof.
  assert (Hin : ProviderParseToolCalls (ProviderObj 0) (mkResponse (Some "done")) []
                ∈ calls (execute (Sample.collaborators Sample.helpful)
                           (Sample.orchestrator 5) "hello" Sample.providers
                           Sample.tools Sample.fresh)) by among.
  split; [exact Hin |].
  exact (proj2 (no_tool_calls_ends_the_session (Sample.collaborators Sample.helpful)
    (Sample.orchestrator 5) "hello" Sample.providers Sample.tools Sample.fresh
    _ _ Hin)).
Defined.

(** A provider that asks for a tool call at every turn, and a budget of one
    iteration. *)
Lemma one_iteration_budget_witness :
  max_iterations (Sample.orchestrator 1) = 1%Z
  ∧ select_provider (Sample.orchestrator 1) Sample.providers = Some (ProviderObj 0)
  ∧ (∀ ms ts w', ∃ response,
       (provider_complete (Sample.collaborators Sample.insistent) (ProviderObj 0)
          ms ts w').1 = Returned response)
  ∧ (∀ response w',
       (provider_parse_tool_calls (Sample.collaborators Sample.insistent)
          (ProviderObj 0) response w').1 ≠ [])
  ∧ count is_complete
      (calls (execute (Sample.collaborators Sample.insistent) (Sample.orchestrator 1)
                "hello" Sample.providers Sample.tools Sample.fresh)) = 1
  ∧ value (execute (Sample.collaborators Sample.insistent) (Sample.orchestrator 1)
             "hello" Sample.providers Sample.tools Sample.fresh) = Some "".
Proof.
  assert (Hresponds : ∀ ms ts w', ∃ response,
     (provider_complete (Sample.collaborators Sample.insistent) (ProviderObj 0)
        ms ts w').1 = Returned response) by (intros; eexists; reflexivity).
  assert (Hcalls : ∀ response w',
     (provider_parse_tool_calls (Sample.collaborators Sample.insistent)
        (ProviderObj 0) response w').1 ≠ []) by (intros; discriminate).
  split; [reflexivity |]. split; [reflexivity |]. split; [exact Hresponds |].
  split; [exact Hcalls |].
  pose proof (one_iteration_budget (Sample.collaborators Sample.insistent)
    (Sample.orchestrator 1) "hello" Sample.providers Sample.tools Sample.fresh
    (ProviderObj 0) eq_refl eq_refl Hresponds Hcalls) as H.
  split; [exact (proj1 H) | exact (proj1 (proj2 H))].
Defined.

(** ** Further examples on the sample collaborators *)

(** The sample orchestrator and its one provider. *)
Lemma select_provider_member_witness :
  select_provider (Sample.orchestrator 5) Sample.providers = Some (ProviderObj 0)
  ∧ ProviderObj 0 ∈ dict_values Sample.providers.
Proof.
  split; [reflexivity |].
  exact (select_provider_member (Sample.orchestrator 5) Sample.providers
           (ProviderObj 0) eq_refl).
Defined.

(** No budget at all. *)
Lemma no_budget_no_iteration_witness :
  (max_iterations (Sample.orchestrator 0) ≤ 0)%Z
  ∧ Sample.providers ≠ []
  ∧ value (execute (Sample.collaborators Sample.helpful) (Sample.orchestrator 0)
             "hello" Sample.providers Sample.tools Sample.fresh) = Some "".
Proof.
  assert (Hmax : (max_iterations (Sample.orchestrator 0) ≤ 0)%Z) by (simpl; lia).
  assert (Hproviders : Sample.providers ≠ []) by discriminate.
  split; [exact Hmax |]. split; [exact Hproviders |].
  exact (proj1 (no_budget_no_iteration (Sample.collaborators Sample.helpful)
    (Sample.orchestrator 0) "hello" Sample.providers Sample.tools Sample.fresh
    Hmax Hproviders)).
Defined.

(** A budget of three iterations and a provider that never answers. *)
Lemma budget_exhausted_witness :
  select_provider (Sample.orchestrator 3) Sample.providers = Some (ProviderObj 0)
  ∧ (∀ ms ts w', ∃ response,
       (provider_complete (Sample.collaborators Sample.insistent) (ProviderObj 0)
          ms ts w').1 = Returned response)
  ∧ (∀ response w',
       (provider_parse_tool_calls (Sample.collaborators Sample.insistent)
          (ProviderObj 0) response w').1 ≠ [])
  ∧ count is_complete
      (calls (execute (Sample.collaborators Sample.insistent) (Sample.orchestrator 3)
                "hello" Sample.providers Sample.tools Sample.fresh)) = 3.
Proof.
  assert (Hresponds : ∀ ms ts w', ∃ response,
     (provider_complete (Sample.collaborators Sample.insistent) (ProviderObj 0)
        ms ts w').1 = Returned response) by (intros; eexists; reflexivity).
  assert (Hcalls : ∀ response w',
     (provider_parse_tool_calls (Sample.collaborators Sample.insistent)
        (ProviderObj 0) response w').1 ≠ []) by (intros; discriminate).
  split; [reflexivity |]. split; [exact Hresponds |]. split; [exact Hcalls |].
  exact (proj1 (budget_exhausted (Sample.collaborators Sample.insistent)
    (Sample.orchestrator 3) "hello" Sample.providers Sample.tools Sample.fresh
    (ProviderObj 0) eq_refl Hresponds Hcalls)).
Defined.

(** A configuration that names a default provider and no budget. *)
Lemma default_budget_witness :
  (∀ c, Some (mkConfig None (Some "main")) = Some c → cfg_max_iterations c = None)
  ∧ (count is_complete
       (calls (execute (Sample.collaborators Sample.insistent)
                 (mount (Some (mkConfig None (Some "main")))).2
                 "hello" Sample.providers Sample.tools Sample.fresh)) ≤ 50)%nat.
Proof.
  assert (Hconfig : ∀ c, Some (mkConfig None (Some "main")) = Some c →
                         cfg_max_iterations c = None)
    by (intros c [= <-]; reflexivity).
  split; [exact Hconfig |].
  exact (proj2 (default_budget (Sample.collaborators Sample.insistent)
    (Some (mkConfig None (Some "main"))) "hello" Sample.providers Sample.tools
    Sample.fresh Hconfig)).
Defined.

(** The sample session is served by its one provider. *)
Lemma one_provider_per_session_witness :
  select_provider (Sample.orchestrator 5) Sample.providers = Some (ProviderObj 0)
  ∧ Forall (uses_provider (ProviderObj 0) Sample.tools)
      (calls (execute (Sample.collaborators Sample.helpful) (Sample.orchestrator 5)
                "hello" Sample.providers Sample.tools Sample.fresh)).
Proof.
  split; [reflexivity |].
  exact (one_provider_per_session (Sample.collaborators Sample.helpful)
    (Sample.orchestrator 5) "hello" Sample.providers Sample.tools Sample.fresh
    (ProviderObj 0) eq_refl).
Defined.

(** The default is the second provider of the mapping. *)
Lemma default_provider_serves_the_session_witness :
  default_provider (Sample.preferring "backup") = Some "backup"
  ∧ "backup" ≠ ""
  ∧ dict_get "backup" Sample.two_providers = Some Sample.backup
  ∧ Forall (uses_provider Sample.backup Sample.tools)
      (calls (execute (Sample.collaborators Sample.helpful) (Sample.preferring "backup")
                "hello" Sample.two_providers Sample.tools Sample.fresh)).
Proof.
  assert (Hname : "backup" ≠ "") by discriminate.
  split; [reflexivity |]. split; [exact Hname |]. split; [reflexivity |].
  exact (default_provider_serves_the_session (Sample.collaborators Sample.helpful)
    (Sample.preferring "backup") "hello" Sample.two_providers Sample.tools Sample.fresh
    "backup" Sample.backup eq_refl Hname eq_refl).
Defined.

(** The default is not a key of the mapping. *)
Lemma missing_default_falls_back_witness :
  (∀ d, default_provider (Sample.preferring "absent") = Some d →
        d = "" ∨ dict_get d (("main", ProviderObj 0) :: [("backup", Sample.backup)]) = None)
  ∧ Forall (uses_provider (ProviderObj 0) Sample.tools)
      (calls (execute (Sample.collaborators Sample.helpful) (Sample.preferring "absent")
                "hello" (("main", ProviderObj 0) :: [("backup", Sample.backup)])
                Sample.tools Sample.fresh)).
Proof.
  assert (Hdefault : ∀ d, default_provider (Sample.preferring "absent") = Some d →
            d = "" ∨ dict_get d (("main", ProviderObj 0) :: [("backup", Sample.backup)]) = None)
    by (intros d [= <-]; right; reflexivity).
  split; [exact Hdefault |].
  exact (missing_default_falls_back (Sample.collaborators Sample.helpful)
    (Sample.preferring "absent") "hello" "main" (ProviderObj 0) [("backup", Sample.backup)]
    Sample.tools Sample.fresh Hdefault).
Defined.

(** [search] raises "boom". *)
Lemma execution_failure_is_recorded_witness :
  hr_action (selecting_verdict (Sample.collaborators Sample.helpful) Sample.tools
               Sample.call_search Sample.fresh) ≠ "deny"
  ∧ hr_action (pre_verdict (Sample.collaborators Sample.helpful) Sample.tools
                 Sample.call_search Sample.fresh) ≠ "deny"
  ∧ looked_up (Sample.collaborators Sample.helpful) Sample.tools Sample.call_search
      Sample.fresh = Some Sample.search
  ∧ execute_outcome (Sample.collaborators Sample.helpful) Sample.tools Sample.call_search
      Sample.search Sample.fresh = Raised "boom"
  ∧ appended (calls (process_tool_call (Sample.collaborators Sample.helpful)
                       Sample.tools Sample.call_search Sample.fresh))
    = [tool_message "search" "call-3" "Error: {'message': 'boom'}"].
Proof.
  split; [discriminate |]. split; [discriminate |]. split; [reflexivity |].
  split; [reflexivity |].
  destruct (execution_failure_is_recorded (Sample.collaborators Sample.helpful)
    Sample.tools Sample.call_search Sample.search "boom" Sample.fresh
    ltac:(discriminate) ltac:(discriminate) eq_refl eq_refl)
    as (selected & reported & posted & ->).
  reflexivity.
Defined.

(** [echo] returns its argument. *)
Lemma returned_result_is_recorded_witness :
  hr_action (selecting_verdict (Sample.collaborators Sample.helpful) Sample.tools
               Sample.call_echo Sample.fresh) ≠ "deny"
  ∧ hr_action (pre_verdict (Sample.collaborators Sample.helpful) Sample.tools
                 Sample.call_echo Sample.fresh) ≠ "deny"
  ∧ looked_up (Sample.collaborators Sample.helpful) Sample.tools Sample.call_echo
      Sample.fresh = Some Sample.echo
  ∧ execute_outcome (Sample.collaborators Sample.helpful) Sample.tools
      Sample.call_echo Sample.echo Sample.fresh
    = Returned (mkToolResult true (PyStr "hi") PyNone)
  ∧ ("error:tool"
     ∉ emitted (calls (process_tool_call (Sample.collaborators Sample.helpful)
                         Sample.tools Sample.call_echo Sample.fresh))).
Proof.
  split; [discriminate |]. split; [discriminate |]. split; [reflexivity |].
  split; [reflexivity |].
  exact (proj2 (returned_result_is_recorded (Sample.collaborators Sample.helpful)
    Sample.tools Sample.call_echo Sample.echo (mkToolResult true (PyStr "hi") PyNone)
    Sample.fresh ltac:(discriminate) ltac:(discriminate) eq_refl eq_refl)).
Defined.

(** A tool that is not in the mapping. *)
Lemma missing_tool_is_reported_witness :
  hr_action (selecting_verdict (Sample.collaborators Sample.helpful) Sample.tools
               Sample.call_missing Sample.fresh) ≠ "deny"
  ∧ hr_action (pre_verdict (Sample.collaborators Sample.helpful) Sample.tools
                 Sample.call_missing Sample.fresh) ≠ "deny"
  ∧ looked_up (Sample.collaborators Sample.helpful) Sample.tools Sample.call_missing
      Sample.fresh = None
  ∧ appended (calls (process_tool_call (Sample.collaborators Sample.helpful)
                       Sample.tools Sample.call_missing Sample.fresh))
    = [tool_message "missing" "call-2" "Error: Tool missing not found"].
Proof.
  split; [discriminate |]. split; [discriminate |]. split; [reflexivity |].
  destruct (missing_tool_is_reported (Sample.collaborators Sample.helpful)
    Sample.tools Sample.call_missing Sample.fresh
    ltac:(discriminate) ltac:(discriminate) eq_refl)
    as (selected & reported & ->).
  reflexivity.
Defined.

(** An action that is neither "deny" nor "modify", with data that names
    [search]: [echo], the requested tool, is executed. *)
Lemma other_actions_allow_witness :
  hr_action (selecting_verdict (Sample.collaborators Sample.deferring) Sample.tools
               Sample.call_echo Sample.fresh) ≠ "deny"
  ∧ hr_action (selecting_verdict (Sample.collaborators Sample.deferring) Sample.tools
                 Sample.call_echo Sample.fresh) ≠ "modify"
  ∧ executed (calls (process_tool_call (Sample.collaborators Sample.deferring)
                       Sample.tools Sample.call_echo Sample.fresh))
    = [Sample.echo].
Proof.
  split; [discriminate |]. split; [discriminate |].
  exact (proj2 (proj2 (other_actions_allow (Sample.collaborators Sample.deferring)
    Sample.tools Sample.call_echo Sample.fresh
    ltac:(discriminate) ltac:(discriminate)))).
Defined.
